(** * pymux: process and terminal control utilities

    A shallow embedding of [pymux/utils.py]: the window-size ioctl
    ([set_terminal_size]), the [nonblocking] context manager, the
    [cached_property] descriptor, [pty_make_controlling_tty] and the
    double-fork [daemonize].

    Python exceptions are values of [exn]; a call either returns or raises
    ([result]).  Code that only talks to the descriptor table or to the object
    heap is written in a state-and-exception monad [M]; code that forks is
    written as a tree of system calls ([prog]) so that the kernel model can
    hand the same continuation to the parent and to the child. *)

From Stdlib Require Import ZArith Lia Bool.
From stdpp Require Import gmap strings list pretty.

Local Open Scope string_scope.
Local Open Scope list_scope.
Local Open Scope Z_scope.

(** ** Exceptions and results *)

Inductive exn : Type :=
| OSError (errno : Z) (strerror : string)
| OverflowError (msg : string)
| KeyError
| AttributeError
| PyException (msg : string)
| SystemExit (code : Z).

Inductive result (A : Type) : Type :=
| Ok (a : A)
| Raised (e : exn).
Arguments Ok {A} a.
Arguments Raised {A} e.

Definition is_OSError (e : exn) : bool :=
  match e with OSError _ _ => true | _ => false end.

(** errno values used by the kernel model. *)
Definition EBADF : Z := 9.
Definition ENOTTY : Z := 25.
Definition EPERM : Z := 1.
Definition ECHILD : Z := 10.
Definition ENXIO : Z := 6.
Definition ENOENT : Z := 2.

(** ** The state-and-exception monad

    A raised exception keeps the state reached so far: Python does not roll
    back side effects when it unwinds. *)

Definition M (St A : Type) : Type := St -> result A * St.

Definition ret {St A} (a : A) : M St A := fun s => (Ok a, s).

Definition bind {St A B} (c : M St A) (k : A -> M St B) : M St B :=
  fun s => match c s with
           | (Ok a, s') => k a s'
           | (Raised e, s') => (Raised e, s')
           end.

Definition raise {St A} (e : exn) : M St A := fun s => (Raised e, s).

(** [try: c  except <catches>: h] *)
Definition try_except {St A} (c : M St A) (catches : exn -> bool)
    (h : M St A) : M St A :=
  fun s => match c s with
           | (Ok a, s') => (Ok a, s')
           | (Raised e, s') => if catches e then h s' else (Raised e, s')
           end.

Definition get_state {St} : M St St := fun s => (Ok s, s).
Definition modify {St} (f : St -> St) : M St unit := fun s => (Ok tt, f s).

Declare Scope M_scope.
Delimit Scope M_scope with M.
Notation "x <- c ;; k" := (bind c (fun x => k))
  (at level 100, c at level 99, k at level 200, right associativity) : M_scope.
Notation "c ;;; k" := (bind c (fun _ => k))
  (at level 100, k at level 200, right associativity) : M_scope.

(** ** The descriptor table of the calling process

    Each open descriptor carries its file status flags and, when it is a
    terminal (a pty endpoint), the window size the kernel holds for it.  The
    kernel also keeps the list of requests it received, oldest first. *)

Record winsize : Type := mk_winsize {
  ws_row : Z; ws_col : Z; ws_xpixel : Z; ws_ypixel : Z
}.

Record descriptor : Type := mk_descriptor {
  d_flags : Z;
  d_tty : option winsize
}.

Inductive request : Type :=
| Ioctl (fd : Z) (req : Z) (arg : list Z)
| FcntlGet (fd : Z)
| FcntlSet (fd : Z) (arg : Z).

Record fdworld : Type := mk_fdworld {
  fds : gmap Z descriptor;
  requests : list request
}.

Definition log_request (r : request) (w : fdworld) : fdworld :=
  {| fds := fds w; requests := requests w ++ [r] |}.

Definition set_descriptor (fd : Z) (d : descriptor) (w : fdworld) : fdworld :=
  {| fds := <[fd := d]> (fds w); requests := requests w |}.

(** ** [array.array('h', ...)]: signed 16-bit items *)

Definition SHRT_MIN : Z := -32768.
Definition SHRT_MAX : Z := 32767.

Definition in_short (x : Z) : Prop := SHRT_MIN <= x <= SHRT_MAX.

(** Python converts the items one by one and raises [OverflowError] at the
    first that does not fit a C [short]. *)
Fixpoint array_h_items (items : list Z) : result (list Z) :=
  match items with
  | [] => Ok []
  | x :: rest =>
      if x <? SHRT_MIN then
        Raised (OverflowError "signed short integer is less than minimum")
      else if SHRT_MAX <? x then
        Raised (OverflowError "signed short integer is greater than maximum")
      else match array_h_items rest with
           | Ok xs => Ok (x :: xs)
           | Raised e => Raised e
           end
  end.

Definition array_h {St} (items : list Z) : M St (list Z) :=
  fun s => (array_h_items items, s).

(** The buffer handed to the kernel: two bytes per item, two's complement,
    least significant byte first. *)
Definition short_bytes (x : Z) : list Z := [x mod 256; (x / 256) mod 256].

Definition array_bytes (items : list Z) : list Z :=
  concat (map short_bytes items).

(** ** The kernel side of [TIOCSWINSZ]

    [struct winsize] is four [unsigned short] fields. *)

Definition TIOCSWINSZ : Z := 0x5414.

Definition ushort_of (lo hi : Z) : Z := lo + 256 * hi.

Definition winsize_of_bytes (b : list Z) : option winsize :=
  match b with
  | [r0; r1; c0; c1; x0; x1; y0; y1] =>
      Some (mk_winsize (ushort_of r0 r1) (ushort_of c0 c1)
                       (ushort_of x0 x1) (ushort_of y0 y1))
  | _ => None
  end.

(** [fcntl.ioctl(fd, request, buf)]: the request reaches the kernel, which
    refuses a descriptor that is not open ([EBADF]) or not a terminal
    ([ENOTTY]). *)
Definition fcntl_ioctl (fd req : Z) (buf : list Z) : M fdworld Z :=
  fun w =>
    let w1 := log_request (Ioctl fd req (array_bytes buf)) w in
    match fds w !! fd with
    | None => (Raised (OSError EBADF "Bad file descriptor"), w1)
    | Some d =>
        match d_tty d, winsize_of_bytes (array_bytes buf) with
        | Some _, Some ws =>
            (Ok 0, set_descriptor fd (mk_descriptor (d_flags d) (Some ws)) w1)
        | Some _, None => (Raised (OSError 22 "Invalid argument"), w1)
        | None, _ =>
            (Raised (OSError ENOTTY "Inappropriate ioctl for device"), w1)
        end
    end.

(** ** [set_terminal_size] *)

Local Open Scope M_scope.

Definition set_terminal_size (stdout_fileno rows cols : Z) : M fdworld unit :=
  buf <- array_h [rows; cols; 0; 0] ;;
  fcntl_ioctl stdout_fileno TIOCSWINSZ buf ;;;
  ret tt.

(** ** [fcntl.fcntl] on the file status flags

    [F_GETFL] reads the flag word of an open descriptor and [F_SETFL]
    replaces it; both fail with [EBADF] on a descriptor that is not open. *)

Definition F_GETFL : Z := 3.
Definition F_SETFL : Z := 4.
Definition O_NONBLOCK : Z := 0x800.

Definition fcntl_fcntl (fd cmd arg : Z) : M fdworld Z :=
  fun w =>
    if cmd =? F_GETFL then
      let w1 := log_request (FcntlGet fd) w in
      match fds w !! fd with
      | Some d => (Ok (d_flags d), w1)
      | None => (Raised (OSError EBADF "Bad file descriptor"), w1)
      end
    else if cmd =? F_SETFL then
      let w1 := log_request (FcntlSet fd arg) w in
      match fds w !! fd with
      | Some d => (Ok 0, set_descriptor fd (mk_descriptor arg (d_tty d)) w1)
      | None => (Raised (OSError EBADF "Bad file descriptor"), w1)
      end
    else (Raised (OSError 22 "Invalid argument"), w).

Definition flags_of (fd : Z) (w : fdworld) : option Z :=
  d_flags <$> fds w !! fd.

(** ** class [nonblocking]

    The object keeps the descriptor and, once entered, the flag word it read
    ([orig_fl]); reading the attribute before it was assigned raises
    [AttributeError]. *)

Record nonblocking : Type := mk_nonblocking {
  nb_fd : Z;
  orig_fl : option Z
}.

Definition nonblocking_init (fd : Z) : nonblocking :=
  {| nb_fd := fd; orig_fl := None |}.

Definition nonblocking_enter (self : nonblocking) : M fdworld nonblocking :=
  fl <- fcntl_fcntl (nb_fd self) F_GETFL 0 ;;
  let self' := {| nb_fd := nb_fd self; orig_fl := Some fl |} in
  fcntl_fcntl (nb_fd self') F_SETFL (Z.lor fl O_NONBLOCK) ;;;
  ret self'.

Definition nonblocking_exit (self : nonblocking) : M fdworld unit :=
  match orig_fl self with
  | None => raise AttributeError
  | Some fl => fcntl_fcntl (nb_fd self) F_SETFL fl ;;; ret tt
  end.

(** [with nonblocking(fd): body].  [__exit__] runs whether the body returned
    or raised; it returns [None], so an exception of the body is raised again
    once the flags are restored, and an exception of [__exit__] itself
    replaces it. *)
Definition with_nonblocking {A} (fd : Z) (body : M fdworld A) : M fdworld A :=
  fun w =>
    match nonblocking_enter (nonblocking_init fd) w with
    | (Raised e, w1) => (Raised e, w1)
    | (Ok self, w1) =>
        let '(r, w2) := body w1 in
        match nonblocking_exit self w2 with
        | (Ok _, w3) => (r, w3)
        | (Raised e, w3) => (Raised e, w3)
        end
    end.

(** A caller that runs one scope after the other on the same descriptor and
    goes on after a scope that raised.  For each scope it notes the flags it
    saw just before acquiring and just after the release. *)
Fixpoint run_scopes {A} (fd : Z) (bodies : list (M fdworld A)) (w : fdworld)
    : list (option Z * option Z) * fdworld :=
  match bodies with
  | [] => ([], w)
  | body :: rest =>
      let pre := flags_of fd w in
      let w' := snd (with_nonblocking fd body w) in
      let post := flags_of fd w' in
      let '(obs, w'') := run_scopes fd rest w' in
      ((pre, post) :: obs, w'')
  end.

(** A body that leaves the descriptor open. *)
Definition keeps_open {A} (fd : Z) (body : M fdworld A) : Prop :=
  forall w, is_Some (fds w !! fd) -> is_Some (fds (snd (body w)) !! fd).

(** The world in which the body of a scope on [fd] starts, when the acquire
    read the flag word [fl] from the descriptor [d] of [w]. *)
Definition entered (fd fl : Z) (w : fdworld) (d : descriptor) : fdworld :=
  set_descriptor fd (mk_descriptor (Z.lor fl O_NONBLOCK) (d_tty d))
    (log_request (FcntlSet fd (Z.lor fl O_NONBLOCK))
       (log_request (FcntlGet fd) w)).

(** A process whose descriptor 1 is a terminal of 24 rows and 80 columns,
    opened read-write. *)
Definition a_terminal : fdworld :=
  {| fds := {[ 1 := mk_descriptor 2 (Some (mk_winsize 24 80 0 0)) ]};
     requests := [] |}.

(** Two bodies for a scope on descriptor 1: the first clears the flag word
    and then raises, the second just returns. *)
Definition failing_body : M fdworld unit :=
  fcntl_fcntl 1 F_SETFL 0 ;;; raise (PyException "read failed").

Definition scope_bodies : list (M fdworld unit) := [failing_body; ret tt].

(** ** class [cached_property]

    Objects and dictionaries have identities.  [cache_attr] maps an instance
    to the dictionary its [_cache] attribute refers to (no entry: the
    attribute does not exist); [dicts] holds the dictionaries; [user] is the
    rest of the program's state, which the wrapped function reads and may
    change.  Clock readings and time-to-live values are counted in ticks. *)

Section CachedProperty.
Context {V U : Type}.

Record pyheap : Type := mk_pyheap {
  cache_attr : gmap nat nat;
  dicts : gmap nat (gmap string (V * Z));
  user : U
}.

Record pyworld : Type := mk_pyworld {
  heap : pyheap;
  clock : Z;
  fget_calls : list (string * nat)
}.

(** The descriptor object after [__init__] and [__call__]. *)
Record cached_property : Type := mk_cached_property {
  ttl : Z;
  fget : nat -> pyheap -> result V * pyheap;
  name : string
}.

(** [cached_property(ttl=300)(fget)] *)
Definition cached_property_decorate (ttl : option Z) (fget_name : string)
    (f : nat -> pyheap -> result V * pyheap) : cached_property :=
  {| ttl := default 300 ttl; fget := f; name := fget_name |}.

Definition with_heap (w : pyworld) (h : pyheap) : pyworld :=
  {| heap := h; clock := clock w; fget_calls := fget_calls w |}.

Definition time_time : M pyworld Z := fun w => (Ok (clock w), w).

(** [inst._cache] *)
Definition getattr_cache (inst : nat) : M pyworld nat :=
  fun w => match cache_attr (heap w) !! inst with
           | Some r => (Ok r, w)
           | None => (Raised AttributeError, w)
           end.

Definition dict_of (h : pyheap) (r : nat) : gmap string (V * Z) :=
  default ∅ (dicts h !! r).

(** [d[key]] *)
Definition dict_getitem (r : nat) (key : string) : M pyworld (V * Z) :=
  fun w => match dict_of (heap w) r !! key with
           | Some e => (Ok e, w)
           | None => (Raised KeyError, w)
           end.

(** [d[key] = e] *)
Definition dict_setitem (r : nat) (key : string) (e : V * Z)
    : M pyworld unit :=
  modify (fun w =>
    let h := heap w in
    with_heap w {| cache_attr := cache_attr h;
                   dicts := <[r := <[key := e]> (dict_of h r)]> (dicts h);
                   user := user h |}).

(** [del d[key]] *)
Definition dict_delitem (r : nat) (key : string) : M pyworld unit :=
  fun w =>
    let h := heap w in
    match dict_of h r !! key with
    | None => (Raised KeyError, w)
    | Some _ =>
        (Ok tt, with_heap w {| cache_attr := cache_attr h;
                               dicts := <[r := delete key (dict_of h r)]> (dicts h);
                               user := user h |})
    end.

(** [{}]: a dictionary nobody else refers to. *)
Definition new_dict : M pyworld nat :=
  fun w =>
    let h := heap w in
    let r := fresh (dom (dicts h)) in
    (Ok r, with_heap w {| cache_attr := cache_attr h;
                          dicts := <[r := ∅]> (dicts h);
                          user := user h |}).

(** [inst._cache = d] *)
Definition setattr_cache (inst r : nat) : M pyworld unit :=
  modify (fun w =>
    let h := heap w in
    with_heap w {| cache_attr := <[inst := r]> (cache_attr h);
                   dicts := dicts h;
                   user := user h |}).

(** [self.fget(inst)], noted in [fget_calls]. *)
Definition call_fget (self : cached_property) (inst : nat) : M pyworld V :=
  fun w =>
    let '(r, h') := fget self inst (heap w) in
    (r, {| heap := h'; clock := clock w;
           fget_calls := fget_calls w ++ [(name self, inst)] |}).

Definition is_KeyError_or_AttributeError (e : exn) : bool :=
  match e with KeyError | AttributeError => true | _ => false end.

Definition is_AttributeError (e : exn) : bool :=
  match e with AttributeError => true | _ => false end.

(** [cached_property.__get__(self, inst, owner)] *)
Definition cached_property_get (self : cached_property) (inst : nat)
    : M pyworld V :=
  now <- time_time ;;
  try_except
    (entry <- (cache <- getattr_cache inst ;; dict_getitem cache (name self)) ;;
     let '(value, last_update) := entry in
     if (0 <? ttl self) && (ttl self <? now - last_update)
     then raise AttributeError
     else ret value)
    is_KeyError_or_AttributeError
    (value <- call_fget self inst ;;
     cache <- try_except (getattr_cache inst) is_AttributeError
                (d <- new_dict ;; setattr_cache inst d ;;; ret d) ;;
     dict_setitem cache (name self) (value, now) ;;;
     ret value).

(** [del instance._cache[<property name>]] *)
Definition expire (inst : nat) (key : string) : M pyworld unit :=
  cache <- getattr_cache inst ;;
  dict_delitem cache key.

(** What [inst._cache[key]] holds, if anything. *)
Definition heap_entry (h : pyheap) (inst : nat) (key : string)
    : option (V * Z) :=
  match cache_attr h !! inst with
  | Some r => dict_of h r !! key
  | None => None
  end.

Definition cache_entry (w : pyworld) (inst : nat) (key : string)
    : option (V * Z) :=
  heap_entry (heap w) inst key.

(** The [except (KeyError, AttributeError)] branch of [__get__], for the
    clock reading [now] taken on entry. *)
Definition recompute (self : cached_property) (inst : nat) (now : Z)
    : M pyworld V :=
  value <- call_fget self inst ;;
  cache <- try_except (getattr_cache inst) is_AttributeError
             (d <- new_dict ;; setattr_cache inst d ;;; ret d) ;;
  dict_setitem cache (name self) (value, now) ;;;
  ret value.

(** The heap after the [except] branch has stored [e] under [key] for
    [inst]: in the dictionary that [inst._cache] refers to, or in a new
    one when the attribute does not exist. *)
Definition store_entry (inst : nat) (key : string) (e : V * Z)
    (h : pyheap) : pyheap :=
  match cache_attr h !! inst with
  | Some r =>
      {| cache_attr := cache_attr h;
         dicts := <[r := <[key := e]> (dict_of h r)]> (dicts h);
         user := user h |}
  | None =>
      let r := fresh (dom (dicts h)) in
      {| cache_attr := <[inst := r]> (cache_attr h);
         dicts := <[r := <[key := e]> ∅]> (<[r := ∅]> (dicts h));
         user := user h |}
  end.

(** No two instances refer to the same dictionary, and every [_cache]
    attribute refers to a dictionary that exists. *)
Definition unshared (h : pyheap) : Prop :=
  (forall i r, cache_attr h !! i = Some r -> r ∈ dom (dicts h)) /\
  (forall i j r, cache_attr h !! i = Some r -> cache_attr h !! j = Some r ->
                 i = j).

(** A wrapped function that leaves the caches of the other instances
    alone: it may read and change the rest of the program's state, and may
    read further cached properties of its own instance. *)
Definition keeps_to_itself (self : cached_property) : Prop :=
  forall inst h,
    unshared h ->
    unshared (snd (fget self inst h)) /\
    forall j key, j <> inst ->
      heap_entry (snd (fget self inst h)) j key = heap_entry h j key.

(** Test drivers: what a caller may do between two reads of the property
    of [inst]. *)
Inductive action : Type :=
| Access
| SetClock (t : Z)
| MutateUser (m : U -> U).

Definition set_clock (t : Z) (w : pyworld) : pyworld :=
  {| heap := heap w; clock := t; fget_calls := fget_calls w |}.

Definition mutate_user (m : U -> U) (w : pyworld) : pyworld :=
  let h := heap w in
  with_heap w {| cache_attr := cache_attr h; dicts := dicts h;
                 user := m (user h) |}.

(** Runs the actions in order; the results of the accesses, oldest first. *)
Fixpoint run_actions (self : cached_property) (inst : nat)
    (acts : list action) (w : pyworld) : list (result V) * pyworld :=
  match acts with
  | [] => ([], w)
  | Access :: rest =>
      let '(r, w') := cached_property_get self inst w in
      let '(rs, w'') := run_actions self inst rest w' in
      (r :: rs, w'')
  | SetClock t :: rest => run_actions self inst rest (set_clock t w)
  | MutateUser m :: rest => run_actions self inst rest (mutate_user m w)
  end.

(** The worlds a program gets into when it starts with no [_cache]
    attribute anywhere and only reads cached properties, expires entries,
    lets time pass and changes its own state. *)
Inductive reachable : pyworld -> Prop :=
| reach_start (u : U) (t : Z) :
    reachable {| heap := {| cache_attr := ∅; dicts := ∅; user := u |};
                 clock := t; fget_calls := [] |}
| reach_get (self : cached_property) (inst : nat) (w : pyworld) :
    reachable w -> keeps_to_itself self ->
    reachable (snd (cached_property_get self inst w))
| reach_expire (inst : nat) (key : string) (w : pyworld) :
    reachable w -> reachable (snd (expire inst key w))
| reach_clock (t : Z) (w : pyworld) :
    reachable w -> reachable (set_clock t w)
| reach_mutate (m : U -> U) (w : pyworld) :
    reachable w -> reachable (mutate_user m w).

End CachedProperty.

Arguments pyheap : clear implicits.
Arguments pyworld : clear implicits.
Arguments cached_property : clear implicits.
Arguments action : clear implicits.

(** An example: a property that reads the program's state (a number),
    cached on instance 7 of a program that starts at clock reading 100 with
    no cache anywhere. *)
Definition read_user : nat -> pyheap Z Z -> result Z * pyheap Z Z :=
  fun _ h => (Ok (user h), h).

Definition start_world : pyworld Z Z :=
  {| heap := {| cache_attr := ∅; dicts := ∅; user := 5 |};
     clock := 100; fget_calls := [] |}.

Definition forever : cached_property Z Z :=
  cached_property_decorate (Some 0) "answer" read_user.

Definition ten_minutes : cached_property Z Z :=
  cached_property_decorate (Some 600) "answer" read_user.

Definition busy_caller : list (action Z) :=
  [MutateUser (fun _ => 9); SetClock 100000; Access; SetClock 0; Access].

(** The world after a first read through [ten_minutes] at clock 100, looked
    at again at clock 800. *)
Definition later_world : pyworld Z Z :=
  set_clock 800 (mutate_user (fun _ => 9)
                   (snd (cached_property_get ten_minutes 7 start_world))).

(** Two instances that have both read the property, looked at much later. *)
Definition two_instances : pyworld Z Z :=
  set_clock 5000
    (snd (cached_property_get ten_minutes 2
            (snd (cached_property_get ten_minutes 1 start_world)))).

(** ** Programs over system calls

    [pty_make_controlling_tty] and [daemonize] are sequences of calls into the
    operating system.  A program is the tree of the calls it may make: each
    call node holds the continuation for whatever the call returns or
    raises.  [os.fork] returns twice, so the kernel model below resumes the
    same continuation in two processes. *)

Inductive sys : Type -> Type :=
| os_fork : sys Z
| os_waitpid (pid options : Z) : sys (Z * Z)
| os_chdir (path : string) : sys unit
| os_umask (mask : Z) : sys Z
| os_setsid : sys unit
| os_ttyname (fd : Z) : sys string
| os_open (path : string) (flags : Z) : sys Z
| os_close (fd : Z) : sys unit
| os_dup2 (fd fd2 : Z) : sys unit
| py_open (path mode : string) (buffering : option Z) : sys Z
| sys_stderr_write (text : string) : sys unit.

Inductive prog (A : Type) : Type :=
| Return (a : A)
| Raise (e : exn)
| Call {X : Type} (c : sys X) (k : result X -> prog A).
Arguments Return {A} a.
Arguments Raise {A} e.
Arguments Call {A X} c k.

Definition call {X} (c : sys X) : prog X :=
  Call c (fun r => match r with Ok x => Return x | Raised e => Raise e end).

Fixpoint pbind {A B} (p : prog A) (f : A -> prog B) : prog B :=
  match p with
  | Return a => f a
  | Raise e => Raise e
  | Call c k => Call c (fun r => pbind (k r) f)
  end.

(** [try: p  except <catches> as e: h e] *)
Fixpoint ptry {A} (p : prog A) (catches : exn -> bool) (h : exn -> prog A)
    : prog A :=
  match p with
  | Return a => Return a
  | Raise e => if catches e then h e else Raise e
  | Call c k => Call c (fun r => ptry (k r) catches h)
  end.

Definition sys_exit {A} (code : Z) : prog A := Raise (SystemExit code).

Declare Scope prog_scope.
Delimit Scope prog_scope with prog.
Notation "x <- c ;; k" := (pbind c (fun x => k))
  (at level 100, c at level 99, k at level 200, right associativity) : prog_scope.
Notation "c ;;; k" := (pbind c (fun _ => k))
  (at level 100, k at level 200, right associativity) : prog_scope.

Local Open Scope prog_scope.

Definition O_WRONLY : Z := 1.
Definition O_RDWR : Z := 2.
Definition O_NOCTTY : Z := 0x100.

Definition newline : string := String (Ascii.ascii_of_nat 10) EmptyString.

Definition any_exception (e : exn) : bool := true.

Definition detach_failed_msg : string :=
  "Failed to disconnect from controlling tty. It is still possible to open /dev/tty.".

(** ** [pty_make_controlling_tty] *)

Definition pty_make_controlling_tty (tty_fd : Z) : prog unit :=
  child_name <- call (os_ttyname tty_fd) ;;
  (* Disconnect from controlling tty. *)
  ptry (fd <- call (os_open "/dev/tty" (Z.lor O_RDWR O_NOCTTY)) ;;
        if 0 <=? fd then call (os_close fd) else Return tt)
       any_exception (fun _ => Return tt) ;;;
  call os_setsid ;;;
  (* Verify we are disconnected from controlling tty. *)
  ptry (fd <- call (os_open "/dev/tty" (Z.lor O_RDWR O_NOCTTY)) ;;
        if 0 <=? fd then
          call (os_close fd) ;;;
          Raise (PyException detach_failed_msg)
        else Return tt)
       any_exception (fun _ => Return tt) ;;;
  (* Verify we can open child pty. *)
  fd <- call (os_open child_name O_RDWR) ;;
  (if fd <? 0 then
     Raise (PyException ("Could not open child pty, " +:+ child_name))
   else call (os_close fd)) ;;;
  (* Verify we now have a controlling tty. *)
  fd <- call (os_open "/dev/tty" O_WRONLY) ;;
  (if fd <? 0 then
     Raise (PyException "Could not open controlling tty, /dev/tty")
   else call (os_close fd)).

(** ** [daemonize] *)

Definition fork_failed_msg (stage : string) (errno : Z) (strerror : string)
    : string :=
  "fork #" +:+ stage +:+ " failed: (" +:+ pretty errno +:+ ") " +:+ strerror
  +:+ newline.

Definition STDIN_FILENO : Z := 0.
Definition STDOUT_FILENO : Z := 1.
Definition STDERR_FILENO : Z := 2.

(** A [return] inside the first [try] leaves the function: the block yields
    [Some v] for [return v] and [None] when control falls out of it. *)
Definition daemonize (stdin stdout stderr : string) : prog Z :=
  (* Do first fork. *)
  returned <-
    ptry (pid <- call os_fork ;;
          if 0 <? pid then
            call (os_waitpid pid 0) ;;;
            Return (Some 0)
          else Return None)
         is_OSError
         (fun e => match e with
                   | OSError errno strerror =>
                       call (sys_stderr_write (fork_failed_msg "1" errno strerror)) ;;;
                       sys_exit 1
                   | _ => Raise e
                   end) ;;
  match returned with
  | Some v => Return v
  | None =>
      (* Decouple from parent environment. *)
      call (os_chdir "/") ;;;
      call (os_umask 0) ;;;
      call os_setsid ;;;
      (* Do second fork. *)
      ptry (pid <- call os_fork ;;
            if 0 <? pid then sys_exit 0 else Return tt)
           is_OSError
           (fun e => match e with
                     | OSError errno strerror =>
                         call (sys_stderr_write (fork_failed_msg "2" errno strerror)) ;;;
                         sys_exit 1
                     | _ => Raise e
                     end) ;;;
      (* Redirect standard file descriptors. *)
      si <- call (py_open stdin "rb" None) ;;
      so <- call (py_open stdout "ab+" None) ;;
      se <- call (py_open stderr "ab+" (Some 0)) ;;
      call (os_dup2 si STDIN_FILENO) ;;;
      call (os_dup2 so STDOUT_FILENO) ;;;
      call (os_dup2 se STDERR_FILENO) ;;;
      Return 1
  end.

(** The keyword defaults: every stream goes to the null device. *)
Definition daemonize_kw (stdin stdout stderr : option string) : prog Z :=
  daemonize (default "/dev/null" stdin) (default "/dev/null" stdout)
            (default "/dev/null" stderr).

(** What [daemonize] hands to its caller. *)
Definition Parent : Z := 0.
Definition Daemon : Z := 1.

(** ** Running a program against a simulated operating system

    The simulation answers each call from the calls made so far; the run
    yields the calls in order, each with its answer, and the outcome. *)

Inductive event : Type :=
| Ev {X : Type} (c : sys X) (r : result X).

Definition simulated_os : Type := forall X, list event -> sys X -> result X.

Fixpoint run_sim {A} (os : simulated_os) (p : prog A) (trace : list event)
    : list event * result A :=
  match p with
  | Return a => (trace, Ok a)
  | Raise e => (trace, Raised e)
  | Call c k =>
      let r := os _ trace c in
      run_sim os (k r) (trace ++ [Ev c r])
  end.

(** A simulated system in which every call succeeds: every [open], also
    that of /dev/tty after [setsid], yields descriptor 3. *)
Definition always_succeeds : simulated_os :=
  fun X _ c =>
    match c in sys X return result X with
    | os_fork => Ok 0
    | os_waitpid pid _ => Ok (pid, 0)
    | os_chdir _ => Ok tt
    | os_umask _ => Ok 18
    | os_setsid => Ok tt
    | os_ttyname _ => Ok "/dev/pts/1"
    | os_open _ _ => Ok 3
    | os_close _ => Ok tt
    | os_dup2 _ _ => Ok tt
    | py_open _ _ _ => Ok 3
    | sys_stderr_write _ => Ok tt
    end.

Definition is_fork (e : event) : bool :=
  match e with
  | Ev c _ => match c with os_fork => true | _ => false end
  end.

(** The system as the process sees it in which the [fork] of the given
    stage (1 or 2) is refused with [errno]: an earlier [fork] returns 0
    (the process is the child), every other call succeeds. *)
Definition fork_refused (stage : nat) (errno : Z) (strerror : string)
    : simulated_os :=
  fun X trace c =>
    match c in sys X return result X with
    | os_fork =>
        if Nat.eqb (S (length (filter (fun e => is_fork e = true) trace))) stage
        then Raised (OSError errno strerror)
        else Ok 0
    | c' => always_succeeds _ trace c'
    end.

(** A simulated system whose calls fail the way system calls do: with
    [OSError]. *)
Definition raises_only_OSError (os : simulated_os) : Prop :=
  forall X trace (c : sys X) e, os X trace c = Raised e -> is_OSError e = true.

(** What a process that gets a value back from [daemonize] has seen, in
    whatever system it runs: either [Parent], after a [fork] that gave it a
    child and a [waitpid] for that child; or [Daemon], after two forks in
    which it was the child, the decoupling calls between them, and the three
    opens and three [dup2] onto descriptors 0, 1 and 2. *)
Definition returns_as (stdin stdout stderr : string) (trace : list event)
    (v : Z) : Prop :=
  (v = Parent /\
   exists pid st,
     0 < pid /\
     trace = [ Ev os_fork (Ok pid); Ev (os_waitpid pid 0) (Ok st) ])
  \/
  (v = Daemon /\
   exists pid1 old pid2 si so se,
     pid1 <= 0 /\ pid2 <= 0 /\
     trace = [ Ev os_fork (Ok pid1);
               Ev (os_chdir "/") (Ok tt);
               Ev (os_umask 0) (Ok old);
               Ev os_setsid (Ok tt);
               Ev os_fork (Ok pid2);
               Ev (py_open stdin "rb" None) (Ok si);
               Ev (py_open stdout "ab+" None) (Ok so);
               Ev (py_open stderr "ab+" (Some 0)) (Ok se);
               Ev (os_dup2 si STDIN_FILENO) (Ok tt);
               Ev (os_dup2 so STDOUT_FILENO) (Ok tt);
               Ev (os_dup2 se STDERR_FILENO) (Ok tt) ]).

(** ** A kernel that runs several processes

    Slot [i] of the process table holds the process with pid [i + 1]; pid 0
    stands for whatever started the first process.  A process is scheduled
    one system call at a time.  A program that has returned lives on in its
    caller; an exception that leaves the program ends the process
    ([SystemExit n] with status [n], any other with status 1). *)

Inductive openmode : Type :=
| PyMode (mode : string) (buffering : option Z)
| OsFlags (flags : Z).

Record file : Type := mk_file {
  f_path : string;
  f_how : openmode
}.

Record proc : Type := mk_proc {
  p_ppid : Z;
  p_sid : Z;
  p_pgid : Z;
  p_ctty : option string;
  p_cwd : string;
  p_umask : Z;
  p_fds : gmap Z file;
  p_trace : list event;
  p_code : prog Z
}.

Record kernel : Type := mk_kernel {
  procs : list proc;
  ttys : list string;
  (** the fate of the n-th [fork]: [Some (errno, strerror)] refuses it *)
  fork_plan : list (option (Z * string));
  forks : nat;
  (** what was written to standard error: pid, the file behind descriptor 2,
      the text *)
  written : list (Z * string * string)
}.

Definition pid_of_slot (i : nat) : Z := Z.of_nat i + 1.

Definition slot_of_pid (pid : Z) : option nat :=
  if 0 <? pid then Some (Z.to_nat (pid - 1)) else None.

Definition exit_status (p : proc) : option Z :=
  match p_code p with
  | Raise (SystemExit n) => Some n
  | Raise _ => Some 1
  | _ => None
  end.

Definition returned (p : proc) : option Z :=
  match p_code p with
  | Return v => Some v
  | _ => None
  end.

(** The lowest descriptor that is not open. *)
Fixpoint lowest_free (m : gmap Z file) (n : nat) (fd : Z) : Z :=
  match n with
  | O => fd
  | S n' => match m !! fd with
            | None => fd
            | Some _ => lowest_free m n' (fd + 1)
            end
  end.

Definition alloc_fd (m : gmap Z file) : Z := lowest_free m (size m) 0.

Definition is_tty (k : kernel) (path : string) : bool :=
  bool_decide (path ∈ ttys k).

(** The process after a call: the answer is noted and the program resumes
    with it. *)
Definition resume {X} (p : proc) (c : sys X) (cont : result X -> prog Z)
    (r : result X) : proc :=
  {| p_ppid := p_ppid p; p_sid := p_sid p; p_pgid := p_pgid p;
     p_ctty := p_ctty p; p_cwd := p_cwd p; p_umask := p_umask p;
     p_fds := p_fds p; p_trace := p_trace p ++ [Ev c r]; p_code := cont r |}.

Definition with_fds (m : gmap Z file) (p : proc) : proc :=
  {| p_ppid := p_ppid p; p_sid := p_sid p; p_pgid := p_pgid p;
     p_ctty := p_ctty p; p_cwd := p_cwd p; p_umask := p_umask p;
     p_fds := m; p_trace := p_trace p; p_code := p_code p |}.

Definition with_ctty (t : option string) (p : proc) : proc :=
  {| p_ppid := p_ppid p; p_sid := p_sid p; p_pgid := p_pgid p;
     p_ctty := t; p_cwd := p_cwd p; p_umask := p_umask p;
     p_fds := p_fds p; p_trace := p_trace p; p_code := p_code p |}.

Definition with_cwd (d : string) (p : proc) : proc :=
  {| p_ppid := p_ppid p; p_sid := p_sid p; p_pgid := p_pgid p;
     p_ctty := p_ctty p; p_cwd := d; p_umask := p_umask p;
     p_fds := p_fds p; p_trace := p_trace p; p_code := p_code p |}.

Definition with_umask (m : Z) (p : proc) : proc :=
  {| p_ppid := p_ppid p; p_sid := p_sid p; p_pgid := p_pgid p;
     p_ctty := p_ctty p; p_cwd := p_cwd p; p_umask := m;
     p_fds := p_fds p; p_trace := p_trace p; p_code := p_code p |}.

(** [setsid]: the caller leads a new session and a new group, with no
    controlling terminal. *)
Definition new_session (pid : Z) (p : proc) : proc :=
  {| p_ppid := p_ppid p; p_sid := pid; p_pgid := pid;
     p_ctty := None; p_cwd := p_cwd p; p_umask := p_umask p;
     p_fds := p_fds p; p_trace := p_trace p; p_code := p_code p |}.

(** The child of a [fork]: a copy of the parent in which [fork] returns 0. *)
Definition fork_child (parent_pid : Z) (p : proc)
    (cont : result Z -> prog Z) : proc :=
  {| p_ppid := parent_pid; p_sid := p_sid p; p_pgid := p_pgid p;
     p_ctty := p_ctty p; p_cwd := p_cwd p; p_umask := p_umask p;
     p_fds := p_fds p; p_trace := [Ev os_fork (Ok 0)]; p_code := cont (Ok 0) |}.

Definition put_proc (i : nat) (p : proc) (k : kernel) : kernel :=
  {| procs := <[i := p]> (procs k); ttys := ttys k;
     fork_plan := fork_plan k; forks := forks k; written := written k |}.

Definition bad_fd {X} : result X := Raised (OSError EBADF "Bad file descriptor").

(** One system call of the process in slot [i]. *)
Definition exec {X} (i : nat) (p : proc) (c : sys X)
    : (result X -> prog Z) -> kernel -> kernel :=
  let pid := pid_of_slot i in
  match c in sys X return (result X -> prog Z) -> kernel -> kernel with
  | os_fork => fun cont k =>
      match mjoin (fork_plan k !! forks k) with
      | Some (errno, strerror) =>
          {| procs := <[i := resume p os_fork cont (Raised (OSError errno strerror))]> (procs k);
             ttys := ttys k; fork_plan := fork_plan k;
             forks := S (forks k); written := written k |}
      | None =>
          let child_pid := pid_of_slot (length (procs k)) in
          {| procs := <[i := resume p os_fork cont (Ok child_pid)]> (procs k)
                      ++ [fork_child pid p cont];
             ttys := ttys k; fork_plan := fork_plan k;
             forks := S (forks k); written := written k |}
      end
  | os_waitpid cpid options => fun cont k =>
      let c := os_waitpid cpid options in
      match slot_of_pid cpid ≫= (fun j => procs k !! j) with
      | Some child =>
          if p_ppid child =? pid then
            match exit_status child with
            | Some n => put_proc i (resume p c cont (Ok (cpid, n * 256))) k
            | None => k
            end
          else put_proc i (resume p c cont (Raised (OSError ECHILD "No child processes"))) k
      | None => put_proc i (resume p c cont (Raised (OSError ECHILD "No child processes"))) k
      end
  | os_chdir path => fun cont k =>
      put_proc i (resume (with_cwd path p) (os_chdir path) cont (Ok tt)) k
  | os_umask mask => fun cont k =>
      put_proc i (resume (with_umask mask p) (os_umask mask) cont (Ok (p_umask p))) k
  | os_setsid => fun cont k =>
      if p_pgid p =? pid then
        put_proc i (resume p os_setsid cont (Raised (OSError EPERM "Operation not permitted"))) k
      else put_proc i (resume (new_session pid p) os_setsid cont (Ok tt)) k
  | os_ttyname fd => fun cont k =>
      let c := os_ttyname fd in
      match p_fds p !! fd with
      | None => put_proc i (resume p c cont bad_fd) k
      | Some f =>
          if is_tty k (f_path f) then put_proc i (resume p c cont (Ok (f_path f))) k
          else put_proc i (resume p c cont (Raised (OSError ENOTTY "Inappropriate ioctl for device"))) k
      end
  | os_open path flags => fun cont k =>
      let c := os_open path flags in
      let fd := alloc_fd (p_fds p) in
      if String.eqb path "/dev/tty" then
        match p_ctty p with
        | None => put_proc i (resume p c cont (Raised (OSError ENXIO "No such device or address"))) k
        | Some t =>
            put_proc i (resume (with_fds (<[fd := mk_file t (OsFlags flags)]> (p_fds p)) p)
                               c cont (Ok fd)) k
        end
      else
        let p1 := with_fds (<[fd := mk_file path (OsFlags flags)]> (p_fds p)) p in
        let p2 := if (p_sid p =? pid) && negb (Z.testbit flags 8)
                     && bool_decide (p_ctty p = None) && is_tty k path
                  then with_ctty (Some path) p1 else p1 in
        put_proc i (resume p2 c cont (Ok fd)) k
  | os_close fd => fun cont k =>
      match p_fds p !! fd with
      | None => put_proc i (resume p (os_close fd) cont bad_fd) k
      | Some _ => put_proc i (resume (with_fds (delete fd (p_fds p)) p) (os_close fd) cont (Ok tt)) k
      end
  | os_dup2 fd fd2 => fun cont k =>
      match p_fds p !! fd with
      | None => put_proc i (resume p (os_dup2 fd fd2) cont bad_fd) k
      | Some f => put_proc i (resume (with_fds (<[fd2 := f]> (p_fds p)) p) (os_dup2 fd fd2) cont (Ok tt)) k
      end
  | py_open path mode buffering => fun cont k =>
      let c := py_open path mode buffering in
      let fd := alloc_fd (p_fds p) in
      let p1 := with_fds (<[fd := mk_file path (PyMode mode buffering)]> (p_fds p)) p in
      let p2 := if (p_sid p =? pid) && bool_decide (p_ctty p = None) && is_tty k path
                then with_ctty (Some path) p1 else p1 in
      put_proc i (resume p2 c cont (Ok fd)) k
  | sys_stderr_write text => fun cont k =>
      let c := sys_stderr_write text in
      match p_fds p !! STDERR_FILENO with
      | None => put_proc i (resume p c cont bad_fd) k
      | Some f =>
          {| procs := <[i := resume p c cont (Ok tt)]> (procs k);
             ttys := ttys k; fork_plan := fork_plan k; forks := forks k;
             written := written k ++ [(pid, f_path f, text)] |}
      end
  end.

Definition kstep (i : nat) (k : kernel) : kernel :=
  match procs k !! i with
  | None => k
  | Some p =>
      match p_code p with
      | Call c cont => exec i p c cont k
      | _ => k
      end
  end.

(** A schedule names, step by step, the slot that runs next. *)
Definition run (schedule : list nat) (k : kernel) : kernel :=
  foldl (fun k i => kstep i k) k schedule.

(** The machine at the start: one process (pid 1), started from a terminal
    [tty0] as the leader of its own process group, with the terminal on
    descriptors 0, 1 and 2. *)
Definition terminal_fds (tty0 : string) : gmap Z file :=
  <[0 := mk_file tty0 (OsFlags O_RDWR)]>
  (<[1 := mk_file tty0 (OsFlags O_RDWR)]>
  (<[2 := mk_file tty0 (OsFlags O_RDWR)]> ∅)).

Definition boot (tty0 cwd0 : string) (umask0 : Z)
    (plan : list (option (Z * string))) (code : prog Z) : kernel :=
  {| procs := [ {| p_ppid := 0; p_sid := 0; p_pgid := 1; p_ctty := Some tty0;
                   p_cwd := cwd0; p_umask := umask0;
                   p_fds := terminal_fds tty0; p_trace := [];
                   p_code := code |} ];
     ttys := [tty0];
     fork_plan := plan; forks := 0; written := [] |}.

(** ** The machine that runs [daemonize]

    Forks succeed and every path can be opened.  Three processes come to
    exist: the caller (slot 0, pid 1), its child (slot 1, pid 2) and the
    child's child (slot 2, pid 3). *)

Section Machine.
Variables (tty0 cwd0 stdin stdout stderr : string) (umask0 : Z).

Definition machine : kernel :=
  boot tty0 cwd0 umask0 [] (daemonize stdin stdout stderr).

(** How many calls each of the three processes has completed.  The caller
    makes 2 (fork, waitpid), its child 4 (chdir, umask, setsid, fork) and
    the grandchild 6 (three opens, three dup2). *)
Definition progress : Type := nat * nat * nat.

Definition consistent (s : progress) : bool :=
  let '(a, b, c) := s in
  (a <=? 2)%nat && (b <=? 4)%nat && (c <=? 6)%nat
  && ((0 <? a)%nat || ((b =? 0)%nat && (c =? 0)%nat))
  && ((b =? 4)%nat || (c =? 0)%nat)
  && ((a <? 2)%nat || (b =? 4)%nat).

(** A schedule that gets each process that far. *)
Definition canon (s : progress) : list nat :=
  let '(a, b, c) := s in
  repeat 0%nat (min a 1) ++ repeat 1%nat b ++ repeat 2%nat c
  ++ repeat 0%nat (a - 1).

Definition at_progress (s : progress) : kernel := run (canon s) machine.

(** The effect of scheduling slot [i]: a process that is blocked, finished
    or not there yet makes no progress. *)
Definition advance (s : progress) (i : nat) : progress :=
  let '(a, b, c) := s in
  match i with
  | 0%nat =>
      if (a =? 0)%nat then (1%nat, b, c)
      else if (a =? 1)%nat && (b =? 4)%nat then (2%nat, b, c)
      else s
  | 1%nat => if (0 <? a)%nat && (b <? 4)%nat then (a, S b, c) else s
  | 2%nat => if (b =? 4)%nat && (c <? 6)%nat then (a, b, S c) else s
  | _ => s
  end.

Definition all_progress : list progress :=
  [ (0, 0, 0);
    (1, 0, 0); (1, 1, 0); (1, 2, 0); (1, 3, 0);
    (1, 4, 0); (1, 4, 1); (1, 4, 2); (1, 4, 3); (1, 4, 4); (1, 4, 5); (1, 4, 6);
    (2, 4, 0); (2, 4, 1); (2, 4, 2); (2, 4, 3); (2, 4, 4); (2, 4, 5); (2, 4, 6)
  ]%nat.

(** A schedule that finishes all three processes from wherever they are. *)
Definition completion : list nat :=
  [0; 1; 1; 1; 1; 2; 2; 2; 2; 2; 2; 0]%nat.

(** The calls that decouple a process from its environment. *)
Definition is_decoupling (e : event) : bool :=
  match e with
  | Ev c _ =>
      match c with
      | os_chdir _ | os_umask _ | os_setsid => true
      | _ => false
      end
  end.

(** What the caller, its child and the grandchild do, in order. *)
Definition caller_calls : list event :=
  [ Ev os_fork (Ok 2); Ev (os_waitpid 2 0) (Ok (2, 0)) ].

Definition child_calls : list event :=
  [ Ev os_fork (Ok 0);
    Ev (os_chdir "/") (Ok tt);
    Ev (os_umask 0) (Ok umask0);
    Ev os_setsid (Ok tt);
    Ev os_fork (Ok 3) ].

Definition grandchild_calls : list event :=
  [ Ev os_fork (Ok 0);
    Ev (py_open stdin "rb" None) (Ok 3);
    Ev (py_open stdout "ab+" None) (Ok 4);
    Ev (py_open stderr "ab+" (Some 0)) (Ok 5);
    Ev (os_dup2 3 0) (Ok tt);
    Ev (os_dup2 4 1) (Ok tt);
    Ev (os_dup2 5 2) (Ok tt) ].

(** [Parent] is handed to the caller only, and only once its child has
    ended. *)
Definition parent_is_the_caller (k : kernel) : Prop :=
  forall j p,
    procs k !! j = Some p -> returned p = Some Parent ->
    j = 0%nat /\ p_trace p = caller_calls /\
    exists child,
      procs k !! 1%nat = Some child /\ p_ppid child = 1 /\
      exit_status child = Some 0.

(** [Daemon] is handed to the grandchild only, with the three streams on
    the given paths. *)
Definition daemon_is_redirected (k : kernel) : Prop :=
  forall j p,
    procs k !! j = Some p -> returned p = Some Daemon ->
    j = 2%nat /\ p_ppid p = 2 /\
    p_fds p !! STDIN_FILENO = Some (mk_file stdin (PyMode "rb" None)) /\
    p_fds p !! STDOUT_FILENO = Some (mk_file stdout (PyMode "ab+" None)) /\
    p_fds p !! STDERR_FILENO = Some (mk_file stderr (PyMode "ab+" (Some 0))).

(** Only the caller's child changes directory, clears the mask and
    starts a session; it does so before it forks. *)
Definition child_decouples (k : kernel) : Prop :=
  (forall j p,
     procs k !! j = Some p -> existsb is_decoupling (p_trace p) = true ->
     j = 1%nat) /\
  (forall p, procs k !! 1%nat = Some p -> p_trace p `prefix_of` child_calls) /\
  (forall p, procs k !! 2%nat = Some p ->
     p_trace p `prefix_of` grandchild_calls).

(** The grandchild starts out in the root directory, with a cleared mask,
    in the session its parent leads, without a controlling terminal. *)
Definition grandchild_inherits (k : kernel) : Prop :=
  forall p,
    procs k !! 2%nat = Some p ->
    p_ppid p = 2 /\ p_cwd p = "/" /\ p_umask p = 0 /\ p_sid p = 2 /\
    p_ctty p = None.

End Machine.

(** A machine started from /dev/pts/0 in a home directory with mask 022,
    daemonizing with the default streams. *)
Definition example_machine : kernel :=
  machine "/dev/pts/0" "/home/user" "/dev/null" "/dev/null" "/dev/null" 18.

(** A caller of [pty_make_controlling_tty]: it forks, and the child makes
    the terminal on its descriptor 0 its controlling terminal. *)
Definition pane_child : prog Z :=
  pid <- call os_fork ;;
  if pid =? 0 then pty_make_controlling_tty 0 ;;; Return 1
  else Return 0.

Definition pane_machine : kernel :=
  boot "/dev/pts/0" "/home/user" 18 [] pane_child.

(** ** The alias table of [pymux/commands/aliases.py]

    The pairs of the dictionary display, in the order written.  Python
    builds the dictionary by storing them one after the other, so a key
    written twice would keep its last value. *)

Definition ALIASES_items : list (string * string) :=
  [ ("bind", "bind-key");
    ("breakp", "break-pane");
    ("clearhist", "clear-history");
    ("confirm", "confirm-before");
    ("detach", "detach-client");
    ("display", "display-message");
    ("displayp", "display-panes");
    ("killp", "kill-pane");
    ("killw", "kill-window");
    ("lastp", "last-pane");
    ("last", "last-window");
    ("lsk", "list-keys");
    ("lsp", "list-panes");
    ("movew", "move-window");
    ("neww", "new-window");
    ("lextl", "next-layout");
    ("next", "next-window");
    ("pasteb", "paste-buffer");
    ("prevl", "previous-layout");
    ("prev", "previous-window");
    ("rename", "rename-session");
    ("renamew", "rename-window");
    ("resizep", "resize-pane");
    ("rotatew", "rotate-window");
    ("selectl", "select-layout");
    ("selectp", "select-pane");
    ("selectw", "select-window");
    ("send", "send-keys");
    ("set", "set-option");
    ("source", "source-file");
    ("splitw", "split-window");
    ("suspendc", "suspend-client");
    ("swapp", "swap-pane");
    ("unbind", "unbind-key") ].

Definition dict_display (items : list (string * string)) : gmap string string :=
  foldl (fun d kv => <[kv.1 := kv.2]> d) ∅ items.

Definition ALIASES : gmap string string := dict_display ALIASES_items.

(** ** One [nonblocking] object used for several scopes

    [nb = nonblocking(fd)] followed by [with nb: ...] statements: the
    object lives beside the descriptor table, and every [__enter__] assigns
    its [orig_fl] anew.  In this kernel model [__enter__] raises only when
    its first call does, before the assignment. *)

Definition enter_shared : M (fdworld * nonblocking) unit :=
  fun s =>
    match nonblocking_enter s.2 s.1 with
    | (Ok self', w') => (Ok tt, (w', self'))
    | (Raised e, w') => (Raised e, (w', s.2))
    end.

Definition exit_shared : M (fdworld * nonblocking) unit :=
  fun s =>
    match nonblocking_exit s.2 s.1 with
    | (r, w') => (r, (w', s.2))
    end.

(** [with nb: body] *)
Definition with_shared {A} (body : M (fdworld * nonblocking) A)
    : M (fdworld * nonblocking) A :=
  fun s =>
    match enter_shared s with
    | (Raised e, s1) => (Raised e, s1)
    | (Ok _, s1) =>
        let '(r, s2) := body s1 in
        match exit_shared s2 with
        | (Ok _, s3) => (r, s3)
        | (Raised e, s3) => (Raised e, s3)
        end
    end.

(** A body that does not know the object. *)
Definition plain_body {A} (body : M fdworld A) : M (fdworld * nonblocking) A :=
  fun s => let '(r, w') := body s.1 in (r, (w', s.2)).


(** A body that closes the descriptor it is given. *)
Definition closing_body (fd : Z) : M fdworld unit :=
  fun w => (Ok tt, {| fds := delete fd (fds w); requests := requests w |}).

(** Further examples for cached properties: a wrapped function that raises,
    a second property that goes by the same name as [forever] but computes
    something else, the world after instance 7 has read [forever], and a
    world in which the [_cache] attributes of instances 1 and 2 refer to one
    and the same dictionary. *)
Definition always_raises : nat -> pyheap Z Z -> result Z * pyheap Z Z :=
  fun _ h => (Raised (PyException "no value"), h).

Definition broken : cached_property Z Z :=
  cached_property_decorate (Some 0) "answer" always_raises.

Definition namesake : cached_property Z Z :=
  cached_property_decorate (Some 600) "answer" (fun _ h => (Ok 0, h)).

Definition read_world : pyworld Z Z :=
  snd (cached_property_get forever 7 start_world).

Definition shared_world : pyworld Z Z :=
  {| heap := {| cache_attr := <[1%nat := 0%nat]> (<[2%nat := 0%nat]> ∅);
                dicts := <[0%nat := ∅]> ∅;
                user := 5 |};
     clock := 100; fget_calls := [] |}.

Definition never_again : cached_property Z Z :=
  cached_property_decorate (Some (-1)) "answer" read_user.

(** ** Reading traces *)

(** [os.open] hands out descriptors, which are not negative. *)
Definition opens_give_descriptors (os : simulated_os) : Prop :=
  forall trace path flags fd,
    os Z trace (os_open path flags) = Ok fd -> 0 <= fd.

Definition is_close_of (fd : Z) (e : event) : Prop :=
  match e with
  | Ev c _ => match c with os_close fd' => fd' = fd | _ => False end
  end.

(** Every descriptor that an [os.open] of the trace returned is closed by
    the very next call. *)
Fixpoint closed_at_once (trace : list event) : Prop :=
  match trace with
  | [] => True
  | Ev c r :: rest =>
      match c in sys X return result X -> Prop with
      | os_open _ _ => fun r =>
          match r with
          | Ok fd => match rest with
                     | e :: _ => is_close_of fd e
                     | [] => False
                     end
          | Raised _ => True
          end
      | _ => fun _ => True
      end r /\ closed_at_once rest
  end.

Definition is_dup2 (e : event) : bool :=
  match e with
  | Ev c _ => match c with os_dup2 _ _ => true | _ => false end
  end.

Definition is_failed_open (e : event) : bool :=
  match e with
  | Ev c r =>
      match c in sys X return result X -> bool with
      | py_open _ _ _ => fun r => match r with Raised _ => true | Ok _ => false end
      | _ => fun _ => false
      end r
  end.

(** A system in which the descriptor name cannot be read, one in which
    [setsid] is refused, one in which [waitpid] is interrupted, and one
    in which the second file cannot be opened; every other call succeeds. *)
Definition no_ttyname : simulated_os :=
  fun X trace c =>
    match c in sys X return result X with
    | os_ttyname _ => Raised (OSError ENOTTY "Inappropriate ioctl for device")
    | c' => always_succeeds _ trace c'
    end.

Definition no_setsid : simulated_os :=
  fun X trace c =>
    match c in sys X return result X with
    | os_setsid => Raised (OSError EPERM "Operation not permitted")
    | c' => always_succeeds _ trace c'
    end.

Definition interrupted_wait : simulated_os :=
  fun X trace c =>
    match c in sys X return result X with
    | os_fork => Ok 2
    | os_waitpid _ _ => Raised (OSError 4 "Interrupted system call")
    | c' => always_succeeds _ trace c'
    end.

Definition as_parent : simulated_os :=
  fun X trace c =>
    match c in sys X return result X with
    | os_fork => Ok 2
    | os_waitpid pid _ => Ok (pid, 256)
    | c' => always_succeeds _ trace c'
    end.

Definition missing_file : simulated_os :=
  fun X trace c =>
    match c in sys X return result X with
    | py_open path _ _ =>
        if String.eqb path "/nonexistent/log"
        then Raised (OSError ENOENT "No such file or directory")
        else Ok 3
    | c' => always_succeeds _ trace c'
    end.


(** * Properties *)

(** ** Terminal geometry *)

Lemma ushort_of_short_bytes (x : Z) :
  ushort_of (x mod 256) ((x / 256) mod 256) = x mod 65536.
Proof.
  unfold ushort_of. change 65536 with (256 * 256).
  rewrite Z.rem_mul_r by lia. reflexivity.
Qed.

Lemma array_h_items_fits (rows cols : Z) :
  in_short rows -> in_short cols ->
  array_h_items [rows; cols; 0; 0] = Ok [rows; cols; 0; 0].
Proof.
  unfold in_short. intros Hr Hc. cbn. unfold SHRT_MIN, SHRT_MAX in *.
  destruct (Z.ltb_spec rows (-32768)); [lia|].
  destruct (Z.ltb_spec 32767 rows); [lia|].
  destruct (Z.ltb_spec cols (-32768)); [lia|].
  destruct (Z.ltb_spec 32767 cols); [lia|].
  reflexivity.
Qed.

Lemma array_h_items_overflow (rows cols : Z) :
  ~ in_short rows \/ ~ in_short cols ->
  exists msg, array_h_items [rows; cols; 0; 0] = Raised (OverflowError msg).
Proof.
  unfold in_short. intros H. cbn. unfold SHRT_MIN, SHRT_MAX in *.
  destruct (Z.ltb_spec rows (-32768)); [eauto|].
  destruct (Z.ltb_spec 32767 rows); [eauto|].
  destruct (Z.ltb_spec cols (-32768)); [eauto|].
  destruct (Z.ltb_spec 32767 cols); [eauto|].
  lia.
Qed.

(** C9.  For rows and cols that fit the buffer's items, [set_terminal_size]
    sends exactly one TIOCSWINSZ request whose argument is four 16-bit
    fields: rows, cols and two zero pixel fields.  On an open terminal
    descriptor the call succeeds and the kernel holds (rows, cols, 0, 0),
    also for rows = 0 and cols = 0; on a descriptor that is closed or not a
    terminal it raises the ioctl's OSError and no descriptor changes. *)
Theorem set_terminal_size_request (w : fdworld) (fd rows cols : Z) :
  in_short rows -> in_short cols ->
  let '(r, w') := set_terminal_size fd rows cols w in
  requests w' =
    requests w ++ [Ioctl fd TIOCSWINSZ
                     (short_bytes rows ++ short_bytes cols ++ [0; 0; 0; 0])]
  /\ length (short_bytes rows) = 2%nat /\ length (short_bytes cols) = 2%nat
  /\ match fds w !! fd with
     | Some d =>
         match d_tty d with
         | Some _ =>
             r = Ok tt /\
             fds w' = <[fd := mk_descriptor (d_flags d)
                                (Some (mk_winsize (rows mod 65536) (cols mod 65536) 0 0))]>
                      (fds w)
         | None =>
             r = Raised (OSError ENOTTY "Inappropriate ioctl for device") /\
             fds w' = fds w
         end
     | None =>
         r = Raised (OSError EBADF "Bad file descriptor") /\ fds w' = fds w
     end
  /\ (0 <= rows -> rows mod 65536 = rows)
  /\ (0 <= cols -> cols mod 65536 = cols).
Proof.
  intros Hr Hc.
  unfold set_terminal_size, bind, array_h.
  rewrite (array_h_items_fits rows cols Hr Hc).
  unfold fcntl_ioctl, ret.
  assert (Hb : array_bytes [rows; cols; 0; 0]
               = short_bytes rows ++ short_bytes cols ++ [0; 0; 0; 0])
    by reflexivity.
  assert (Hw : winsize_of_bytes (array_bytes [rows; cols; 0; 0])
               = Some (mk_winsize (rows mod 65536) (cols mod 65536) 0 0)).
  { cbn. rewrite !ushort_of_short_bytes. reflexivity. }
  rewrite Hw, Hb.
  assert (Hmod : forall x, in_short x -> 0 <= x -> x mod 65536 = x).
  { unfold in_short, SHRT_MIN, SHRT_MAX. intros x Hx H0.
    apply Z.mod_small. lia. }
  destruct (fds w !! fd) as [d|] eqn:Hfd.
  - destruct (d_tty d) as [ws|] eqn:Htty; cbn; auto 10.
  - cbn. auto 10.
Qed.

Lemma set_terminal_size_request_witness :
  in_short 0 /\ in_short 0 /\
  let '(r, w') := set_terminal_size 1 0 0 a_terminal in
  requests w' =
    requests a_terminal ++ [Ioctl 1 TIOCSWINSZ
                     (short_bytes 0 ++ short_bytes 0 ++ [0; 0; 0; 0])]
  /\ length (short_bytes 0) = 2%nat /\ length (short_bytes 0) = 2%nat
  /\ match fds a_terminal !! 1 with
     | Some d =>
         match d_tty d with
         | Some _ =>
             r = Ok tt /\
             fds w' = <[1 := mk_descriptor (d_flags d)
                                (Some (mk_winsize (0 mod 65536) (0 mod 65536) 0 0))]>
                      (fds a_terminal)
         | None =>
             r = Raised (OSError ENOTTY "Inappropriate ioctl for device") /\
             fds w' = fds a_terminal
         end
     | None =>
         r = Raised (OSError EBADF "Bad file descriptor") /\ fds w' = fds a_terminal
     end
  /\ (0 <= 0 -> 0 mod 65536 = 0)
  /\ (0 <= 0 -> 0 mod 65536 = 0).
Proof.
  assert (H0 : in_short 0) by (unfold in_short, SHRT_MIN, SHRT_MAX; lia).
  split; [exact H0|]. split; [exact H0|].
  exact (set_terminal_size_request a_terminal 1 0 0 H0 H0).
Defined.

(** C10.  A rows or cols value outside the signed 16-bit range makes
    [set_terminal_size] raise OverflowError while it builds the buffer: the
    descriptor table is untouched and the kernel received no request. *)
Theorem set_terminal_size_overflow (w : fdworld) (fd rows cols : Z) :
  rows > 32767 \/ rows < -32768 \/ cols > 32767 \/ cols < -32768 ->
  exists msg,
    set_terminal_size fd rows cols w = (Raised (OverflowError msg), w).
Proof.
  intros H.
  destruct (array_h_items_overflow rows cols) as [msg Hmsg].
  { unfold in_short, SHRT_MIN, SHRT_MAX. lia. }
  exists msg. unfold set_terminal_size, bind, array_h. rewrite Hmsg. reflexivity.
Qed.

Lemma set_terminal_size_overflow_witness :
  (40000 > 32767 \/ 40000 < -32768 \/ 80 > 32767 \/ 80 < -32768) /\
  exists msg,
    set_terminal_size 1 40000 80 a_terminal = (Raised (OverflowError msg), a_terminal).
Proof.
  assert (H : 40000 > 32767 \/ 40000 < -32768 \/ 80 > 32767 \/ 80 < -32768)
    by (left; reflexivity).
  split; [exact H|].
  exact (set_terminal_size_overflow a_terminal 1 40000 80 H).
Defined.

(** ** Non-blocking scopes *)

Lemma fds_log_request (r : request) (w : fdworld) :
  fds (log_request r w) = fds w.
Proof. reflexivity. Qed.

Lemma nonblocking_enter_open (fd : Z) (w : fdworld) (d : descriptor) :
  fds w !! fd = Some d ->
  nonblocking_enter (nonblocking_init fd) w
  = (Ok {| nb_fd := fd; orig_fl := Some (d_flags d) |},
     entered fd (d_flags d) w d).
Proof.
  intros Hd. unfold nonblocking_enter, nonblocking_init, bind, fcntl_fcntl, ret.
  cbn. rewrite Hd, fds_log_request, Hd. reflexivity.
Qed.

Lemma nonblocking_exit_open (fd fl : Z) (w : fdworld) (d : descriptor) :
  fds w !! fd = Some d ->
  nonblocking_exit {| nb_fd := fd; orig_fl := Some fl |} w
  = (Ok tt, set_descriptor fd (mk_descriptor fl (d_tty d))
              (log_request (FcntlSet fd fl) w)).
Proof.
  intros Hd. unfold nonblocking_exit, bind, fcntl_fcntl, ret.
  cbn. rewrite Hd. reflexivity.
Qed.

(** One scope: whatever the body does to the flags, and whether it returns
    or raises, the release hands the kernel the very word that the acquire
    read, and the body's outcome is the outcome of the statement. *)
Lemma with_nonblocking_restores {A} (fd fl : Z) (body : M fdworld A)
    (w : fdworld) :
  flags_of fd w = Some fl ->
  keeps_open fd body ->
  exists d w2,
    fds w !! fd = Some d /\
    w2 = snd (body (entered fd fl w d)) /\
    with_nonblocking fd body w
    = (fst (body (entered fd fl w d)),
       set_descriptor fd (mk_descriptor fl (default None (d_tty <$> fds w2 !! fd)))
         (log_request (FcntlSet fd fl) w2)) /\
    flags_of fd (snd (with_nonblocking fd body w)) = Some fl.
Proof.
  unfold flags_of. intros Hfl Hopen.
  destruct (fds w !! fd) as [d|] eqn:Hd; [|discriminate].
  cbn in Hfl. injection Hfl as Hfl.
  exists d, (snd (body (entered fd fl w d))).
  split; [reflexivity|]. split; [reflexivity|].
  unfold with_nonblocking. rewrite (nonblocking_enter_open fd w d Hd), Hfl.
  destruct (body (entered fd fl w d)) as [r w2] eqn:Hbody.
  assert (Hopen2 : is_Some (fds w2 !! fd)).
  { specialize (Hopen (entered fd fl w d)). rewrite Hbody in Hopen.
    apply Hopen. unfold entered, set_descriptor. cbn.
    rewrite lookup_insert_eq. eauto. }
  destruct Hopen2 as [d2 Hd2].
  rewrite (nonblocking_exit_open fd fl w2 d2 Hd2). cbn. rewrite Hd2. cbn.
  split; [reflexivity|]. rewrite lookup_insert_eq. reflexivity.
Qed.

Lemma with_nonblocking_keeps_open {A} (fd : Z) (body : M fdworld A) :
  keeps_open fd body -> keeps_open fd (with_nonblocking fd body).
Proof.
  intros Hopen w [d Hd].
  destruct (with_nonblocking_restores fd (d_flags d) body w) as (d' & w2 & _ & _ & _ & Hfl).
  - unfold flags_of. rewrite Hd. reflexivity.
  - exact Hopen.
  - unfold flags_of in Hfl.
    destruct (fds (snd (with_nonblocking fd body w)) !! fd); [eauto|discriminate].
Qed.

(** C5.  On a descriptor that is open and stays open, any sequence of
    scopes, with bodies that may change the flags at will and may raise,
    leaves after each release exactly the flags seen just before the
    matching acquire (which are the flags seen before the first acquire). *)
Theorem nonblocking_scopes_restore_flags {A} (fd fl : Z)
    (bodies : list (M fdworld A)) (w : fdworld) :
  flags_of fd w = Some fl ->
  Forall (keeps_open fd) bodies ->
  length (fst (run_scopes fd bodies w)) = length bodies /\
  Forall (fun obs : option Z * option Z => snd obs = fst obs /\ fst obs = Some fl)
         (fst (run_scopes fd bodies w)) /\
  flags_of fd (snd (run_scopes fd bodies w)) = Some fl.
Proof.
  intros Hfl Hall. revert w Hfl.
  induction Hall as [|body rest Hbody Hrest IH]; intros w Hfl.
  - cbn. auto.
  - cbn.
    destruct (with_nonblocking_restores fd fl body w Hfl Hbody)
      as (d & w2 & _ & _ & _ & Hpost).
    destruct (IH _ Hpost) as (Hlen & Hobs & Hend).
    destruct (run_scopes fd rest (snd (with_nonblocking fd body w)))
      as [obs w''] eqn:Hrun.
    cbn in *. rewrite Hfl, Hpost.
    split; [congruence|]. split; [|exact Hend].
    constructor; [cbn; auto|exact Hobs].
Qed.

Lemma failing_body_keeps_open : keeps_open 1 failing_body.
Proof.
  intros w [d Hd]. unfold failing_body, bind, raise, fcntl_fcntl. cbn.
  rewrite Hd. cbn. rewrite lookup_insert_eq. eauto.
Qed.

Lemma ret_keeps_open {A} (fd : Z) (a : A) : keeps_open fd (ret a).
Proof. intros w Hw. exact Hw. Qed.

Lemma nonblocking_scopes_restore_flags_witness :
  flags_of 1 a_terminal = Some 2 /\
  Forall (keeps_open 1) scope_bodies /\
  length (fst (run_scopes 1 scope_bodies a_terminal)) = length scope_bodies /\
  Forall (fun obs : option Z * option Z => snd obs = fst obs /\ fst obs = Some 2)
         (fst (run_scopes 1 scope_bodies a_terminal)) /\
  flags_of 1 (snd (run_scopes 1 scope_bodies a_terminal)) = Some 2.
Proof.
  assert (H1 : flags_of 1 a_terminal = Some 2) by reflexivity.
  assert (H2 : Forall (keeps_open 1) scope_bodies).
  { repeat constructor.
    - exact failing_body_keeps_open.
    - exact (ret_keeps_open 1 tt). }
  split; [exact H1|]. split; [exact H2|].
  exact (nonblocking_scopes_restore_flags 1 2 scope_bodies a_terminal H1 H2).
Defined.

(** The scope around the failing body: the exception comes out of the
    statement and the flags are back. *)
Example failing_scope_restores :
  fst (with_nonblocking 1 failing_body a_terminal)
    = Raised (PyException "read failed") /\
  flags_of 1 (snd (with_nonblocking 1 failing_body a_terminal)) = Some 2 /\
  requests (snd (with_nonblocking 1 failing_body a_terminal))
    = [FcntlGet 1; FcntlSet 1 2050; FcntlSet 1 0; FcntlSet 1 2].
Proof. vm_compute. auto. Qed.

(** ** Cached properties *)

Section CachedPropertyFacts.
Context {V U : Type}.
Implicit Types (self : cached_property V U) (w : pyworld V U)
               (h : pyheap V U) (inst : nat) (v : V).

(** The [try] part of [__get__] finds nothing: the value is computed. *)
Lemma get_miss self inst w :
  cache_entry w inst (name self) = None ->
  cached_property_get self inst w = recompute self inst (clock w) w.
Proof.
  unfold cache_entry, heap_entry. intros Hmiss.
  unfold cached_property_get, recompute, bind at 1, time_time, try_except.
  unfold bind at 1 2, getattr_cache, dict_getitem.
  destruct (cache_attr (heap w) !! inst) as [r|]; [|reflexivity].
  rewrite Hmiss. reflexivity.
Qed.

(** It finds an entry that is too old: the value is computed again. *)
Lemma get_expired self inst w v t :
  cache_entry w inst (name self) = Some (v, t) ->
  0 < ttl self -> ttl self < clock w - t ->
  cached_property_get self inst w = recompute self inst (clock w) w.
Proof.
  unfold cache_entry, heap_entry. intros Hhit Hpos Hold.
  unfold cached_property_get, recompute, bind at 1, time_time, try_except.
  unfold bind at 1 2, getattr_cache, dict_getitem.
  destruct (cache_attr (heap w) !! inst) as [r|]; [|discriminate].
  rewrite Hhit.
  destruct (Z.ltb_spec 0 (ttl self)); [|lia].
  destruct (Z.ltb_spec (ttl self) (clock w - t)); [|lia].
  reflexivity.
Qed.

(** It finds an entry that still counts: the stored value is returned and
    nothing changes. *)
Lemma get_hit self inst w v t :
  cache_entry w inst (name self) = Some (v, t) ->
  ttl self <= 0 \/ clock w - t <= ttl self ->
  cached_property_get self inst w = (Ok v, w).
Proof.
  unfold cache_entry, heap_entry. intros Hhit Hfresh.
  unfold cached_property_get, bind at 1, time_time, try_except.
  unfold bind at 1 2, getattr_cache, dict_getitem.
  destruct (cache_attr (heap w) !! inst) as [r|]; [|discriminate].
  rewrite Hhit.
  destruct (Z.ltb_spec 0 (ttl self)); cbn; [|reflexivity].
  destruct (Z.ltb_spec (ttl self) (clock w - t)); [lia|reflexivity].
Qed.

(** What computing does when the wrapped function returns: one call is
    noted, and the entry holds the value with the clock reading. *)
Lemma recompute_ok self inst w v h1 now :
  fget self inst (heap w) = (Ok v, h1) ->
  exists w',
    recompute self inst now w = (Ok v, w') /\
    cache_entry w' inst (name self) = Some (v, now) /\
    fget_calls w' = fget_calls w ++ [(name self, inst)] /\
    clock w' = clock w /\ user (heap w') = user h1.
Proof.
  intros Hf.
  unfold recompute, bind at 1, call_fget. rewrite Hf.
  unfold bind at 1, try_except, getattr_cache. cbn [heap].
  destruct (cache_attr h1 !! inst) as [r|] eqn:Hr.
  - eexists. split; [reflexivity|].
    unfold cache_entry, heap_entry. cbn. rewrite Hr.
    unfold dict_of at 1. cbn. rewrite lookup_insert_eq. cbn.
    rewrite lookup_insert_eq. auto.
  - eexists. split; [reflexivity|].
    unfold cache_entry, heap_entry. cbn. rewrite lookup_insert_eq.
    unfold dict_of at 1. cbn. rewrite lookup_insert_eq. cbn.
    rewrite lookup_insert_eq. auto.
Qed.

(** When the wrapped function raises, the exception leaves [__get__]; the
    call is noted all the same. *)
Lemma recompute_raises self inst w e h1 now :
  fget self inst (heap w) = (Raised e, h1) ->
  recompute self inst now w
  = (Raised e, {| heap := h1; clock := clock w;
                  fget_calls := fget_calls w ++ [(name self, inst)] |}).
Proof.
  intros Hf. unfold recompute, bind at 1, call_fget. rewrite Hf. reflexivity.
Qed.

Lemma recompute_calls self inst w now :
  fget_calls (snd (recompute self inst now w))
  = fget_calls w ++ [(name self, inst)].
Proof.
  destruct (fget self inst (heap w)) as [[v|e] h1] eqn:Hf.
  - destruct (recompute_ok self inst w v h1 now Hf) as (w' & -> & _ & Hc & _).
    exact Hc.
  - rewrite (recompute_raises self inst w e h1 now Hf). reflexivity.
Qed.

(** With a time-to-live of 0 an entry, once there, answers every read,
    whatever the clock says and however the program's state changes. *)
Lemma ttl_zero_entry_stays self inst v t (acts : list (action U)) :
  ttl self = 0 ->
  forall w,
    cache_entry w inst (name self) = Some (v, t) ->
    Forall (fun r => r = Ok v) (fst (run_actions self inst acts w)) /\
    fget_calls (snd (run_actions self inst acts w)) = fget_calls w.
Proof.
  intros Httl. induction acts as [|[|t'|m] rest IH]; intros w Hhit.
  - cbn. auto.
  - cbn [run_actions]. rewrite (get_hit self inst w v t Hhit) by lia.
    destruct (IH w Hhit) as [Hrs Hcalls].
    destruct (run_actions self inst rest w) as [rs w''].
    cbn in *. auto.
  - cbn [run_actions]. apply (IH (set_clock t' w)). exact Hhit.
  - cbn [run_actions]. apply (IH (mutate_user m w)). exact Hhit.
Qed.

(** C6.  With ttl = 0, the first read of a property of an instance calls
    the wrapped function once and stores its value; every later read,
    at whatever clock reading and after whatever change of the state the
    function reads, returns that same value and calls nothing. *)
Theorem ttl_zero_computes_once self inst w v h1 (acts : list (action U)) :
  ttl self = 0 ->
  cache_entry w inst (name self) = None ->
  fget self inst (heap w) = (Ok v, h1) ->
  let '(r1, w1) := cached_property_get self inst w in
  let '(rs, w2) := run_actions self inst acts w1 in
  r1 = Ok v /\
  fget_calls w1 = fget_calls w ++ [(name self, inst)] /\
  Forall (fun r => r = Ok v) rs /\
  fget_calls w2 = fget_calls w ++ [(name self, inst)].
Proof.
  intros Httl Hmiss Hf.
  rewrite (get_miss self inst w Hmiss).
  destruct (recompute_ok self inst w v h1 (clock w) Hf)
    as (w1 & -> & Hentry & Hcalls & _).
  destruct (ttl_zero_entry_stays self inst v (clock w) acts Httl w1 Hentry)
    as [Hrs Hsame].
  destruct (run_actions self inst acts w1) as [rs w2].
  cbn in *. rewrite Hsame. auto.
Qed.

(** C7.  With ttl = T > 0 and an entry (v0, t0) in place, a read calls the
    wrapped function exactly when the clock is more than T past t0; it
    then stores the new value with the current clock reading.  Otherwise
    it returns v0 and changes nothing. *)
Theorem ttl_positive_expiry self inst w v0 t0 :
  0 < ttl self ->
  cache_entry w inst (name self) = Some (v0, t0) ->
  let '(r, w') := cached_property_get self inst w in
  (fget_calls w' = fget_calls w ++ [(name self, inst)]
     <-> ttl self < clock w - t0) /\
  (ttl self < clock w - t0 ->
     forall v h1, fget self inst (heap w) = (Ok v, h1) ->
       r = Ok v /\ cache_entry w' inst (name self) = Some (v, clock w)) /\
  (~ ttl self < clock w - t0 -> r = Ok v0 /\ w' = w).
Proof.
  intros Hpos Hhit.
  destruct (Z_lt_dec (ttl self) (clock w - t0)) as [Hold|Hfresh].
  - rewrite (get_expired self inst w v0 t0 Hhit Hpos Hold).
    pose proof (recompute_calls self inst w (clock w)) as Hcalls.
    destruct (recompute self inst (clock w) w) as [r w'] eqn:Hre.
    cbn in Hcalls. split; [tauto|]. split; [|tauto].
    intros _ v h1 Hf.
    destruct (recompute_ok self inst w v h1 (clock w) Hf)
      as (w1 & Hre' & Hentry & _).
    rewrite Hre in Hre'. injection Hre' as -> ->. auto.
  - rewrite (get_hit self inst w v0 t0 Hhit) by lia.
    split; [|split; [tauto|auto]].
    split; [|tauto]. intros Hcalls.
    apply (f_equal length) in Hcalls. rewrite length_app in Hcalls.
    cbn in Hcalls. lia.
Qed.

End CachedPropertyFacts.

Lemma ttl_zero_computes_once_witness :
  ttl forever = 0 /\
  cache_entry start_world 7 (name forever) = None /\
  fget forever 7 (heap start_world) = (Ok 5, heap start_world) /\
  let '(r1, w1) := cached_property_get forever 7 start_world in
  let '(rs, w2) := run_actions forever 7 busy_caller w1 in
  r1 = Ok 5 /\
  fget_calls w1 = fget_calls start_world ++ [(name forever, 7%nat)] /\
  Forall (fun r => r = Ok 5) rs /\
  fget_calls w2 = fget_calls start_world ++ [(name forever, 7%nat)].
Proof.
  assert (H1 : ttl forever = 0) by reflexivity.
  assert (H2 : cache_entry start_world 7 (name forever) = None) by reflexivity.
  assert (H3 : fget forever 7 (heap start_world) = (Ok 5, heap start_world))
    by reflexivity.
  split; [exact H1|]. split; [exact H2|]. split; [exact H3|].
  exact (ttl_zero_computes_once forever 7 start_world 5 (heap start_world)
           busy_caller H1 H2 H3).
Defined.

Lemma ttl_positive_expiry_witness :
  0 < ttl ten_minutes /\
  cache_entry later_world 7 (name ten_minutes) = Some (5, 100) /\
  let '(r, w') := cached_property_get ten_minutes 7 later_world in
  (fget_calls w' = fget_calls later_world ++ [(name ten_minutes, 7%nat)]
     <-> ttl ten_minutes < clock later_world - 100) /\
  (ttl ten_minutes < clock later_world - 100 ->
     forall v h1, fget ten_minutes 7 (heap later_world) = (Ok v, h1) ->
       r = Ok v /\
       cache_entry w' 7 (name ten_minutes) = Some (v, clock later_world)) /\
  (~ ttl ten_minutes < clock later_world - 100 -> r = Ok 5 /\ w' = later_world).
Proof.
  assert (H1 : 0 < ttl ten_minutes) by reflexivity.
  assert (H2 : cache_entry later_world 7 (name ten_minutes) = Some (5, 100))
    by (vm_compute; reflexivity).
  split; [exact H1|]. split; [exact H2|].
  exact (ttl_positive_expiry ten_minutes 7 later_world 5 100 H1 H2).
Defined.

(** The same reads, run: the stale entry is replaced by the new state. *)
Example ten_minutes_later :
  fst (cached_property_get ten_minutes 7 later_world) = Ok 9 /\
  fst (cached_property_get ten_minutes 7 (set_clock 700 later_world)) = Ok 5 /\
  fst (cached_property_get ten_minutes 7 (set_clock 701 later_world)) = Ok 9.
Proof. vm_compute. auto. Qed.

Section CacheIndependence.
Context {V U : Type}.
Implicit Types (self : cached_property V U) (w : pyworld V U)
               (h : pyheap V U) (inst a b : nat) (v : V).

(** A read either answers from the cache and changes nothing, or takes
    the [except] branch. *)
Lemma get_cases self inst w :
  (exists v, cached_property_get self inst w = (Ok v, w)) \/
  cached_property_get self inst w = recompute self inst (clock w) w.
Proof.
  destruct (cache_entry w inst (name self)) as [[v t]|] eqn:He.
  - destruct (Z_lt_dec 0 (ttl self)) as [Hpos|Hnonpos].
    + destruct (Z_lt_dec (ttl self) (clock w - t)) as [Hold|Hfresh].
      * right. exact (get_expired self inst w v t He Hpos Hold).
      * left. exists v. apply (get_hit self inst w v t He). lia.
    + left. exists v. apply (get_hit self inst w v t He). lia.
  - right. exact (get_miss self inst w He).
Qed.

(** The heap that the [except] branch leaves. *)
Lemma recompute_heap self inst w now :
  heap (snd (recompute self inst now w))
  = match fget self inst (heap w) with
    | (Ok v, h1) => store_entry inst (name self) (v, now) h1
    | (Raised _, h1) => h1
    end.
Proof.
  unfold recompute, bind at 1, call_fget.
  destruct (fget self inst (heap w)) as [[v|e] h1]; [|reflexivity].
  unfold bind at 1, try_except, getattr_cache, store_entry. cbn [heap].
  destruct (cache_attr h1 !! inst) as [r|] eqn:Hr; [reflexivity|].
  cbn. unfold dict_of. cbn. rewrite lookup_insert_eq. reflexivity.
Qed.

Lemma store_entry_unshared inst key (e : V * Z) h :
  unshared h -> unshared (store_entry inst key e h).
Proof.
  intros [Hdom Hinj]. unfold store_entry.
  destruct (cache_attr h !! inst) as [r|] eqn:Hr; split; cbn.
  - intros i r' Hi. rewrite dom_insert_L. apply Hdom in Hi. set_solver.
  - exact Hinj.
  - intros i r' Hi. rewrite !dom_insert_L.
    destruct (decide (i = inst)) as [->|Hne].
    + rewrite lookup_insert_eq in Hi. injection Hi as <-. set_solver.
    + rewrite lookup_insert_ne in Hi by congruence.
      apply Hdom in Hi. set_solver.
  - intros i j r' Hi Hj.
    pose proof (is_fresh (dom (dicts h))) as Hfresh.
    destruct (decide (i = inst)) as [->|Hi'];
      destruct (decide (j = inst)) as [->|Hj']; [reflexivity| | |].
    + rewrite lookup_insert_eq in Hi. injection Hi as <-.
      rewrite lookup_insert_ne in Hj by congruence.
      apply Hdom in Hj. contradiction.
    + rewrite lookup_insert_eq in Hj. injection Hj as <-.
      rewrite lookup_insert_ne in Hi by congruence.
      apply Hdom in Hi. contradiction.
    + rewrite lookup_insert_ne in Hi by congruence.
      rewrite lookup_insert_ne in Hj by congruence.
      exact (Hinj i j r' Hi Hj).
Qed.

Lemma store_entry_frame a b key (e : V * Z) k h :
  unshared h -> a <> b ->
  heap_entry (store_entry a key e h) b k = heap_entry h b k.
Proof.
  intros [Hdom Hinj] Hab. unfold store_entry, heap_entry.
  destruct (cache_attr h !! a) as [r|] eqn:Hr; cbn.
  - destruct (cache_attr h !! b) as [rb|] eqn:Hb; [|reflexivity].
    assert (r <> rb) by (intros ->; apply Hab; exact (Hinj a b rb Hr Hb)).
    unfold dict_of. cbn. rewrite lookup_insert_ne by assumption. reflexivity.
  - rewrite lookup_insert_ne by assumption.
    destruct (cache_attr h !! b) as [rb|] eqn:Hb; [|reflexivity].
    pose proof (is_fresh (dom (dicts h))) as Hfresh.
    assert (fresh (dom (dicts h)) <> rb).
    { intros Heq. apply Hfresh. rewrite Heq. exact (Hdom b rb Hb). }
    unfold dict_of. cbn. rewrite !lookup_insert_ne by assumption. reflexivity.
Qed.

(** [del inst._cache[key]] changes one dictionary, or nothing. *)
Lemma expire_heap inst key w :
  heap (snd (expire inst key w)) = heap w \/
  exists r, cache_attr (heap w) !! inst = Some r /\
    heap (snd (expire inst key w))
    = {| cache_attr := cache_attr (heap w);
         dicts := <[r := delete key (dict_of (heap w) r)]> (dicts (heap w));
         user := user (heap w) |}.
Proof.
  unfold expire, bind, getattr_cache, dict_delitem.
  destruct (cache_attr (heap w) !! inst) as [r|] eqn:Hr; [|left; reflexivity].
  destruct (dict_of (heap w) r !! key); [|left; reflexivity].
  right. exists r. split; reflexivity.
Qed.

Lemma expire_unshared inst key w :
  unshared (heap w) -> unshared (heap (snd (expire inst key w))).
Proof.
  intros Hw. destruct (expire_heap inst key w) as [->|(r & Hr & ->)];
    [exact Hw|].
  destruct Hw as [Hdom Hinj]. split; cbn; [|exact Hinj].
  intros i r' Hi. rewrite dom_insert_L. apply Hdom in Hi. set_solver.
Qed.

Lemma get_unshared self inst w :
  keeps_to_itself self ->
  unshared (heap w) -> unshared (heap (snd (cached_property_get self inst w))).
Proof.
  intros Hself Hw.
  destruct (get_cases self inst w) as [[v ->]| ->]; [exact Hw|].
  rewrite recompute_heap.
  destruct (Hself inst (heap w) Hw) as [Hun _].
  destruct (fget self inst (heap w)) as [[v|e] h1]; cbn in Hun;
    [apply store_entry_unshared|]; exact Hun.
Qed.

(** Every world the program gets into keeps the dictionaries apart. *)
Lemma reachable_unshared w : reachable w -> unshared (heap w).
Proof.
  induction 1 as [u t|self inst w Hw IH Hself|inst key w Hw IH|t w Hw IH|m w Hw IH].
  - split; cbn; intros *; rewrite lookup_empty; discriminate.
  - exact (get_unshared self inst w Hself IH).
  - exact (expire_unshared inst key w IH).
  - exact IH.
  - exact IH.
Qed.

(** C8.  In every such world, reading a property of instance [a]
    (computing the value or replacing a stale one) and expiring an entry
    of [a] leave every cache entry of another instance [b] as it was. *)
Theorem cache_entries_are_per_instance self a b w (key expired : string) :
  reachable w -> keeps_to_itself self -> a <> b ->
  cache_entry (snd (cached_property_get self a w)) b key = cache_entry w b key
  /\ cache_entry (snd (expire a expired w)) b key = cache_entry w b key.
Proof.
  intros Hw Hself Hab. apply reachable_unshared in Hw. split.
  - unfold cache_entry.
    destruct (get_cases self a w) as [[v ->]| ->]; [reflexivity|].
    rewrite recompute_heap.
    destruct (Hself a (heap w) Hw) as [Hun Hframe].
    specialize (Hframe b key (not_eq_sym Hab)).
    destruct (fget self a (heap w)) as [[v|e] h1]; cbn in Hun, Hframe.
    + rewrite (store_entry_frame a b (name self) (v, clock w) key h1 Hun Hab).
      exact Hframe.
    + exact Hframe.
  - unfold cache_entry.
    destruct (expire_heap a expired w) as [->|(r & Hr & ->)]; [reflexivity|].
    destruct Hw as [Hdom Hinj]. unfold heap_entry. cbn.
    destruct (cache_attr (heap w) !! b) as [rb|] eqn:Hb; [|reflexivity].
    assert (r <> rb) by (intros ->; apply Hab; exact (Hinj a b rb Hr Hb)).
    unfold dict_of. cbn. rewrite lookup_insert_ne by assumption. reflexivity.
Qed.

End CacheIndependence.

Lemma read_user_keeps_to_itself (t : option Z) (n : string) :
  keeps_to_itself (cached_property_decorate t n read_user).
Proof. intros inst h Hh. cbn. auto. Qed.

Lemma two_instances_reachable : reachable two_instances.
Proof.
  unfold two_instances.
  apply reach_clock.
  apply reach_get; [|apply read_user_keeps_to_itself].
  apply reach_get; [|apply read_user_keeps_to_itself].
  apply reach_start.
Qed.

Lemma cache_entries_are_per_instance_witness :
  reachable two_instances /\ keeps_to_itself ten_minutes /\ 1%nat <> 2%nat /\
  cache_entry (snd (cached_property_get ten_minutes 1 two_instances)) 2 "answer"
    = cache_entry two_instances 2 "answer"
  /\ cache_entry (snd (expire 1 "answer" two_instances)) 2 "answer"
    = cache_entry two_instances 2 "answer".
Proof.
  assert (H1 : reachable two_instances) by exact two_instances_reachable.
  assert (H2 : keeps_to_itself ten_minutes)
    by exact (read_user_keeps_to_itself (Some 600) "answer").
  assert (H3 : 1%nat <> 2%nat) by discriminate.
  split; [exact H1|]. split; [exact H2|]. split; [exact H3|].
  exact (cache_entries_are_per_instance ten_minutes 1 2 two_instances
           "answer" "answer" H1 H2 H3).
Defined.

(** ** Making the pty the controlling terminal *)

(** C1.  In a system where /dev/tty can still be opened after [setsid], the
    function closes the descriptor, raises its "Failed to disconnect"
    exception and catches it at once in the enclosing bare [except]: it goes
    on to open the child pty and /dev/tty and returns normally. *)
Theorem detach_check_is_swallowed :
  run_sim always_succeeds (pty_make_controlling_tty 0) []
  = ([ Ev (os_ttyname 0) (Ok "/dev/pts/1");
       Ev (os_open "/dev/tty" 258) (Ok 3);
       Ev (os_close 3) (Ok tt);
       Ev os_setsid (Ok tt);
       Ev (os_open "/dev/tty" 258) (Ok 3);
       Ev (os_close 3) (Ok tt);
       Ev (os_open "/dev/pts/1" 2) (Ok 3);
       Ev (os_close 3) (Ok tt);
       Ev (os_open "/dev/tty" 1) (Ok 3);
       Ev (os_close 3) (Ok tt) ],
     Ok tt).
Proof. reflexivity. Qed.

(** Whatever the system answers, the "Failed to disconnect" exception never
    leaves the function. *)
Lemma detach_failure_never_reported (os : simulated_os) (tty_fd : Z)
    (trace : list event) :
  raises_only_OSError os ->
  snd (run_sim os (pty_make_controlling_tty tty_fd) trace)
  <> Raised (PyException detach_failed_msg).
Proof.
  intros Hos. unfold pty_make_controlling_tty. cbn.
  repeat match goal with
         | |- context [os ?X ?t ?c] =>
             let H := fresh "Hcall" in
             destruct (os X t c) eqn:H; cbn
         | |- context [if ?b then _ else _] => destruct b; cbn
         end;
    intros Heq; try discriminate;
    injection Heq as ->;
    match goal with
    | H : os _ _ _ = Raised (PyException _) |- _ => apply Hos in H; discriminate
    end.
Qed.

(** On the machine model, in a forked child with a terminal on descriptor
    0: after [setsid] the open of /dev/tty is refused, the open of the
    terminal's own device makes it the controlling terminal of the new
    session, and the function returns. *)
Example pty_becomes_controlling_tty :
  map (fun p => (returned p, p_sid p, p_ctty p))
      (procs (run (0 :: repeat 1 12)%nat pane_machine))
    = [ (Some 0, 0, Some "/dev/pts/0"); (Some 1, 2, Some "/dev/pts/0") ] /\
  p_trace <$> procs (run (0 :: repeat 1 5)%nat pane_machine) !! 1%nat
    = Some [ Ev os_fork (Ok 0);
             Ev (os_ttyname 0) (Ok "/dev/pts/0");
             Ev (os_open "/dev/tty" 258) (Ok 3);
             Ev (os_close 3) (Ok tt);
             Ev os_setsid (Ok tt);
             Ev (os_open "/dev/tty" 258)
                (Raised (OSError ENXIO "No such device or address")) ].
Proof. vm_compute. auto. Qed.

(** ** Daemonizing: a refused fork *)

(** Both refusals end the process with the same status. *)
Lemma fork_failures_exit_alike :
  snd (run_sim (fork_refused 1 11 "Resource temporarily unavailable")
         (daemonize "/dev/null" "/dev/null" "/dev/null") [])
    = Raised (SystemExit 1) /\
  snd (run_sim (fork_refused 2 11 "Resource temporarily unavailable")
         (daemonize "/dev/null" "/dev/null" "/dev/null") [])
    = Raised (SystemExit 1).
Proof. split; reflexivity. Qed.

(** C2, as the code has it.  A refused fork is fatal at either stage: the
    process writes "fork #1 failed: ..." or "fork #2 failed: ..." to its
    standard error, makes no further call (no second attempt) and ends with
    exit status 1, the same at both stages.  On the machine model the text
    lands on the terminal the first process was started from. *)
Theorem fork_failure_is_fatal (stdin stdout stderr tty0 cwd0 strerror : string)
    (errno umask0 : Z) :
  run_sim (fork_refused 1 errno strerror) (daemonize stdin stdout stderr) []
    = ([ Ev os_fork (Raised (OSError errno strerror));
         Ev (sys_stderr_write (fork_failed_msg "1" errno strerror)) (Ok tt) ],
       Raised (SystemExit 1))
  /\
  run_sim (fork_refused 2 errno strerror) (daemonize stdin stdout stderr) []
    = ([ Ev os_fork (Ok 0);
         Ev (os_chdir "/") (Ok tt);
         Ev (os_umask 0) (Ok 18);
         Ev os_setsid (Ok tt);
         Ev os_fork (Raised (OSError errno strerror));
         Ev (sys_stderr_write (fork_failed_msg "2" errno strerror)) (Ok tt) ],
       Raised (SystemExit 1))
  /\
  (let k := run [0; 0]%nat
              (boot tty0 cwd0 umask0 [Some (errno, strerror)]
                 (daemonize stdin stdout stderr)) in
   written k = [(1, tty0, fork_failed_msg "1" errno strerror)] /\
   map exit_status (procs k) = [Some 1])
  /\
  (let k := run [0; 1; 1; 1; 1; 1; 0]%nat
              (boot tty0 cwd0 umask0 [None; Some (errno, strerror)]
                 (daemonize stdin stdout stderr)) in
   written k = [(2, tty0, fork_failed_msg "2" errno strerror)] /\
   map exit_status (procs k) = [None; Some 1] /\
   map returned (procs k) = [Some Parent; None]).
Proof.
  split; [reflexivity|]. split; [reflexivity|].
  split; vm_compute; auto.
Qed.

(** ** Daemonizing: what a process sees *)

Ltac next_answer os :=
  match goal with
  | |- context [os ?X ?t ?c] =>
      lazymatch t with
      | context [os] => fail
      | _ => let H := fresh "Hcall" in destruct (os X t c) eqn:H; cbn
      end
  end.

(** In any system, whatever its calls answer, [daemonize] hands back a
    value only in the two ways of [returns_as]. *)
Lemma daemonize_returns_as (os : simulated_os) (stdin stdout stderr : string)
    (v : Z) :
  snd (run_sim os (daemonize stdin stdout stderr) []) = Ok v ->
  returns_as stdin stdout stderr
    (fst (run_sim os (daemonize stdin stdout stderr) [])) v.
Proof.
  unfold daemonize, returns_as. cbn.
  next_answer os.
  2: { destruct e; cbn; try discriminate.
       next_answer os; discriminate. }
  destruct (Z.ltb_spec 0 a) as [Hpid|Hpid]; cbn.
  - next_answer os.
    + intros Hv. injection Hv as <-. left. split; [reflexivity|].
      destruct a0 as [p st]. eauto.
    + destruct e; cbn; try discriminate.
      next_answer os; discriminate.
  - next_answer os; [|discriminate]. destruct a0.
    next_answer os; [|discriminate].
    next_answer os; [|discriminate]. destruct a1.
    next_answer os.
    2: { destruct e; cbn; try discriminate.
         next_answer os; discriminate. }
    destruct (Z.ltb_spec 0 a1) as [Hpid2|Hpid2]; cbn; [discriminate|].
    next_answer os; [|discriminate].
    next_answer os; [|discriminate].
    next_answer os; [|discriminate].
    next_answer os; [|discriminate]. destruct a5.
    next_answer os; [|discriminate]. destruct a5.
    next_answer os; [|discriminate]. destruct a5.
    intros Hv. injection Hv as <-. right. split; [reflexivity|].
    exists a, a0, a1, a2, a3, a4. auto.
Qed.

(** ** Daemonizing: the three processes *)

Section MachineFacts.
Variables (tty0 cwd0 stdin stdout stderr : string) (umask0 : Z).

Local Abbreviation machine := (machine tty0 cwd0 stdin stdout stderr umask0).
Local Abbreviation at_progress :=
  (at_progress tty0 cwd0 stdin stdout stderr umask0).

Lemma run_snoc (schedule : list nat) (i : nat) (k : kernel) :
  run (schedule ++ [i]) k = kstep i (run schedule k).
Proof. unfold run. rewrite foldl_app. reflexivity. Qed.

Lemma run_app (s1 s2 : list nat) (k : kernel) :
  run (s1 ++ s2) k = run s2 (run s1 k).
Proof. unfold run. apply foldl_app. Qed.

Lemma consistent_cases (s : progress) :
  consistent s = true -> In s all_progress.
Proof.
  destruct s as [[a b] c].
  destruct a as [|[|[|a]]]; try discriminate;
    destruct b as [|[|[|[|[|b]]]]]; try discriminate;
    destruct c as [|[|[|[|[|[|[|c]]]]]]]; try discriminate;
    intros _; cbn; auto 25.
Qed.

(** Scheduling a slot moves the machine from one of the nineteen
    configurations to the next. *)
Lemma kstep_at_progress (s : progress) (i : nat) :
  In s all_progress ->
  kstep i (at_progress s) = at_progress (advance s i) /\
  consistent (advance s i) = true.
Proof.
  intros Hs. cbn in Hs.
  repeat (destruct Hs as [<-|Hs]; [|]); [..|contradiction];
    destruct i as [|[|[|i]]]; split;
    solve [vm_compute; reflexivity].
Qed.

(** However the three processes are interleaved, the machine is in one of
    those configurations. *)
Lemma run_at_progress (schedule : list nat) :
  exists s, In s all_progress /\ run schedule machine = at_progress s.
Proof.
  induction schedule as [|i schedule IH] using rev_ind.
  - exists (0, 0, 0)%nat. split; [cbn; auto|reflexivity].
  - destruct IH as (s & Hs & Hrun).
    exists (advance s i). rewrite run_snoc, Hrun.
    destruct (kstep_at_progress s i Hs) as [Hstep Hcons].
    split; [apply consistent_cases; exact Hcons|exact Hstep].
Qed.

Local Abbreviation daemon_is_redirected :=
  (daemon_is_redirected stdin stdout stderr).
Local Abbreviation child_decouples :=
  (child_decouples stdin stdout stderr umask0).

Ltac each_configuration H :=
  cbn in H; repeat (destruct H as [<-|H]; [|]); [..|contradiction].

Ltac pick_process j Hj :=
  destruct j as [|[|[|j]]]; vm_compute in Hj; try discriminate;
  injection Hj as <-.

Lemma parent_at_progress (s : progress) :
  In s all_progress -> parent_is_the_caller (at_progress s).
Proof.
  intros Hs. each_configuration Hs; intros j p Hj Hret;
    pick_process j Hj; vm_compute in Hret; try discriminate;
    (split; [reflexivity|]; split; [reflexivity|];
     eexists; split; [vm_compute; reflexivity|]; split; reflexivity).
Qed.

Lemma daemon_at_progress (s : progress) :
  In s all_progress -> daemon_is_redirected (at_progress s).
Proof.
  intros Hs. each_configuration Hs; intros j p Hj Hret;
    pick_process j Hj; vm_compute in Hret; try discriminate;
    repeat split; vm_compute; reflexivity.
Qed.

Lemma decoupling_at_progress (s : progress) :
  In s all_progress -> child_decouples (at_progress s).
Proof.
  intros Hs. each_configuration Hs; (split; [|split]).
  all: try (intros j p Hj Hdec; pick_process j Hj;
            vm_compute in Hdec; try discriminate; reflexivity).
  all: intros p Hp; vm_compute in Hp; try discriminate;
    injection Hp as <-; unfold child_calls, grandchild_calls;
    eexists; cbn [app]; reflexivity.
Qed.

Lemma grandchild_at_progress (s : progress) :
  In s all_progress -> grandchild_inherits (at_progress s).
Proof.
  intros Hs. each_configuration Hs; intros p Hp;
    vm_compute in Hp; try discriminate; injection Hp as <-;
    repeat split; reflexivity.
Qed.

Lemma completion_at_progress (s : progress) :
  In s all_progress ->
  run completion (at_progress s) = at_progress (2, 4, 6)%nat.
Proof.
  intros Hs. each_configuration Hs; vm_compute; reflexivity.
Qed.

(** C4.  However the processes are interleaved: [daemonize] returns
    [Parent] in the calling process only, after its [waitpid] for its own
    child, which has ended; it returns [Daemon] in the grandchild only,
    whose descriptors 0, 1 and 2 then are the given paths, opened "rb",
    "ab+" and "ab+" unbuffered.  Letting every process run to its end
    always leads there, and without arguments the three paths are the null
    device.  Seen from one process, in any system whatever its calls
    answer, a value comes back only as [Parent] after fork and waitpid, or
    as [Daemon] after the redirection. *)
Theorem daemonize_roles (schedule : list nat) :
  parent_is_the_caller (run schedule machine) /\
  daemon_is_redirected (run schedule machine) /\
  map returned (procs (run (schedule ++ completion) machine))
    = [Some Parent; None; Some Daemon] /\
  map exit_status (procs (run (schedule ++ completion) machine))
    = [None; Some 0; None] /\
  daemonize_kw None None None
    = daemonize "/dev/null" "/dev/null" "/dev/null" /\
  (forall (os : simulated_os) (v : Z),
     snd (run_sim os (daemonize stdin stdout stderr) []) = Ok v ->
     returns_as stdin stdout stderr
       (fst (run_sim os (daemonize stdin stdout stderr) [])) v).
Proof.
  destruct (run_at_progress schedule) as (s & Hs & Hrun).
  rewrite run_app, Hrun, (completion_at_progress s Hs).
  split; [exact (parent_at_progress s Hs)|].
  split; [exact (daemon_at_progress s Hs)|].
  split; [vm_compute; reflexivity|].
  split; [vm_compute; reflexivity|].
  split; [reflexivity|].
  intros os v. exact (daemonize_returns_as os stdin stdout stderr v).
Qed.

(** C3, as the code has it.  However the processes are interleaved: the
    directory change, the cleared mask and the new session are the work
    of the caller's child, before its own fork; the grandchild makes none
    of these calls.  It is born in the root directory, with a cleared
    mask, in the session its parent leads, and its only calls are the
    three opens and the three dup2 that precede its return of [Daemon]. *)
Theorem decoupling_is_the_childs_work (schedule : list nat) :
  child_decouples (run schedule machine) /\
  grandchild_inherits (run schedule machine) /\
  (forall j p, procs (run schedule machine) !! j = Some p ->
     returned p = Some Daemon -> j = 2%nat /\ p_trace p = grandchild_calls stdin stdout stderr).
Proof.
  destruct (run_at_progress schedule) as (s & Hs & Hrun). rewrite Hrun.
  split; [exact (decoupling_at_progress s Hs)|].
  split; [exact (grandchild_at_progress s Hs)|].
  clear Hrun schedule.
  each_configuration Hs; intros j p Hj Hret;
    pick_process j Hj; vm_compute in Hret; try discriminate;
    split; reflexivity.
Qed.

End MachineFacts.

(** On a concrete machine, run to the end: the process that returns
    [Daemon] (slot 2) has made no decoupling call; its parent (slot 1) made
    them and has exited. *)
Lemma grandchild_makes_no_decoupling_call :
  map returned (procs (run completion example_machine))
    = [Some Parent; None; Some Daemon] /\
  map (fun p => existsb is_decoupling (p_trace p))
      (procs (run completion example_machine))
    = [false; true; false].
Proof. vm_compute. auto. Qed.

(** * Further properties *)

(** ** Terminal geometry, further *)

(** What the call does on a terminal, for sizes that fit the buffer. *)
Lemma set_terminal_size_on_tty (w : fdworld) (fd rows cols : Z)
    (d : descriptor) (ws : winsize) :
  in_short rows -> in_short cols ->
  fds w !! fd = Some d -> d_tty d = Some ws ->
  set_terminal_size fd rows cols w
  = (Ok tt,
     set_descriptor fd
       (mk_descriptor (d_flags d)
          (Some (mk_winsize (rows mod 65536) (cols mod 65536) 0 0)))
       (log_request
          (Ioctl fd TIOCSWINSZ
             (short_bytes rows ++ short_bytes cols ++ [0; 0; 0; 0])) w)).
Proof.
  intros Hr Hc Hd Htty.
  unfold set_terminal_size, bind, array_h.
  rewrite (array_h_items_fits rows cols Hr Hc).
  unfold fcntl_ioctl, ret. rewrite Hd, Htty.
  assert (Hw : winsize_of_bytes (array_bytes [rows; cols; 0; 0])
               = Some (mk_winsize (rows mod 65536) (cols mod 65536) 0 0)).
  { cbn. rewrite !ushort_of_short_bytes. reflexivity. }
  rewrite Hw. reflexivity.
Qed.

(** X1.  A negative number of rows that fits a signed 16-bit item is not
    refused: the call succeeds and the kernel, which reads the field as
    unsigned, holds rows + 65536 (at least 32768) rows. *)
Theorem set_terminal_size_negative_rows (w : fdworld) (fd rows cols : Z)
    (d : descriptor) (ws : winsize) :
  -32768 <= rows < 0 -> 0 <= cols <= 32767 ->
  fds w !! fd = Some d -> d_tty d = Some ws ->
  fst (set_terminal_size fd rows cols w) = Ok tt /\
  d_tty <$> fds (snd (set_terminal_size fd rows cols w)) !! fd
    = Some (Some (mk_winsize (rows + 65536) cols 0 0)) /\
  32768 <= rows + 65536.
Proof.
  intros Hr Hc Hd Htty.
  rewrite (set_terminal_size_on_tty w fd rows cols d ws); try assumption;
    try (unfold in_short, SHRT_MIN, SHRT_MAX; lia).
  cbn. rewrite lookup_insert_eq. cbn.
  replace (rows mod 65536) with (rows + 65536).
  2: { apply Z.mod_unique with (q := -1); lia. }
  rewrite (Z.mod_small cols) by lia.
  split; [reflexivity|]. split; [reflexivity|lia].
Qed.

Lemma set_terminal_size_negative_rows_witness :
  -32768 <= -1 < 0 /\ 0 <= 80 <= 32767 /\
  fds a_terminal !! 1 = Some (mk_descriptor 2 (Some (mk_winsize 24 80 0 0))) /\
  d_tty (mk_descriptor 2 (Some (mk_winsize 24 80 0 0)))
    = Some (mk_winsize 24 80 0 0) /\
  fst (set_terminal_size 1 (-1) 80 a_terminal) = Ok tt /\
  d_tty <$> fds (snd (set_terminal_size 1 (-1) 80 a_terminal)) !! 1
    = Some (Some (mk_winsize (-1 + 65536) 80 0 0)) /\
  32768 <= -1 + 65536.
Proof.
  assert (H1 : -32768 <= -1 < 0) by lia.
  assert (H2 : 0 <= 80 <= 32767) by lia.
  assert (H3 : fds a_terminal !! 1
               = Some (mk_descriptor 2 (Some (mk_winsize 24 80 0 0))))
    by reflexivity.
  assert (H4 : d_tty (mk_descriptor 2 (Some (mk_winsize 24 80 0 0)))
               = Some (mk_winsize 24 80 0 0)) by reflexivity.
  split; [exact H1|]. split; [exact H2|]. split; [exact H3|].
  split; [exact H4|].
  exact (set_terminal_size_negative_rows a_terminal 1 (-1) 80 _ _ H1 H2 H3 H4).
Defined.



(** ** Non-blocking scopes, further *)

Lemma lor_nonblock_bits (fl : Z) :
  Z.testbit (Z.lor fl O_NONBLOCK) 11 = true /\
  forall i, i <> 11 -> Z.testbit (Z.lor fl O_NONBLOCK) i = Z.testbit fl i.
Proof.
  split.
  - rewrite Z.lor_spec. unfold O_NONBLOCK. cbn. apply orb_true_r.
  - intros i Hi. rewrite Z.lor_spec.
    assert (Hbit : Z.testbit O_NONBLOCK i = false).
    { unfold O_NONBLOCK. change 0x800 with (2 ^ 11).
      destruct (Z_lt_dec i 0) as [Hneg|Hpos].
      - apply Z.testbit_neg_r. exact Hneg.
      - rewrite Z.pow2_bits_eqb by lia. apply Z.eqb_neq. congruence. }
    rewrite Hbit. apply orb_false_r.
Qed.

(** X3.  Inside the scope the descriptor is non-blocking and nothing else
    about its flags has changed: the body starts with the flag word in
    which bit 11 ([O_NONBLOCK]) is set and every other bit is as it was,
    and the statement ends as the body does. *)
Theorem nonblocking_body_sees_flag {A} (fd fl : Z) (body : M fdworld A)
    (w : fdworld) :
  flags_of fd w = Some fl ->
  keeps_open fd body ->
  exists d,
    fds w !! fd = Some d /\
    fst (with_nonblocking fd body w) = fst (body (entered fd fl w d)) /\
    flags_of fd (entered fd fl w d) = Some (Z.lor fl O_NONBLOCK) /\
    Z.testbit (Z.lor fl O_NONBLOCK) 11 = true /\
    (forall i, i <> 11 -> Z.testbit (Z.lor fl O_NONBLOCK) i = Z.testbit fl i).
Proof.
  intros Hfl Hopen.
  destruct (with_nonblocking_restores fd fl body w Hfl Hopen)
    as (d & w2 & Hd & _ & Heq & _).
  exists d. split; [exact Hd|]. split; [rewrite Heq; reflexivity|].
  split.
  - unfold flags_of, entered, set_descriptor. cbn.
    rewrite lookup_insert_eq. reflexivity.
  - exact (lor_nonblock_bits fl).
Qed.

Lemma nonblocking_body_sees_flag_witness :
  flags_of 1 a_terminal = Some 2 /\
  keeps_open 1 failing_body /\
  exists d,
    fds a_terminal !! 1 = Some d /\
    fst (with_nonblocking 1 failing_body a_terminal)
      = fst (failing_body (entered 1 2 a_terminal d)) /\
    flags_of 1 (entered 1 2 a_terminal d) = Some (Z.lor 2 O_NONBLOCK) /\
    Z.testbit (Z.lor 2 O_NONBLOCK) 11 = true /\
    (forall i, i <> 11 -> Z.testbit (Z.lor 2 O_NONBLOCK) i = Z.testbit 2 i).
Proof.
  assert (H1 : flags_of 1 a_terminal = Some 2) by reflexivity.
  assert (H2 : keeps_open 1 failing_body) by exact failing_body_keeps_open.
  split; [exact H1|]. split; [exact H2|].
  exact (nonblocking_body_sees_flag 1 2 failing_body a_terminal H1 H2).
Defined.

(** X4.  On a descriptor that is not open the statement raises the
    [OSError] of the first [fcntl] call: the body is not run, [__exit__]
    is not called, and the only request the kernel saw is the read of the
    flags. *)
Theorem nonblocking_on_closed_descriptor {A} (fd : Z) (body : M fdworld A)
    (w : fdworld) :
  fds w !! fd = None ->
  with_nonblocking fd body w
  = (Raised (OSError EBADF "Bad file descriptor"),
     log_request (FcntlGet fd) w).
Proof.
  intros Hclosed.
  unfold with_nonblocking, nonblocking_enter, nonblocking_init, bind,
    fcntl_fcntl. cbn. rewrite Hclosed. reflexivity.
Qed.

Lemma nonblocking_on_closed_descriptor_witness :
  fds a_terminal !! 7 = None /\
  with_nonblocking 7 failing_body a_terminal
  = (Raised (OSError EBADF "Bad file descriptor"),
     log_request (FcntlGet 7) a_terminal).
Proof.
  assert (H : fds a_terminal !! 7 = None) by reflexivity.
  split; [exact H|].
  exact (nonblocking_on_closed_descriptor 7 failing_body a_terminal H).
Defined.

(** X5.  When the body leaves the descriptor closed, [__exit__] raises
    [OSError] (EBADF), and that exception is what the statement raises,
    whatever the body returned or raised. *)
Theorem nonblocking_exit_masks_outcome {A} (fd fl : Z) (body : M fdworld A)
    (w : fdworld) (d : descriptor) :
  fds w !! fd = Some d -> d_flags d = fl ->
  fds (snd (body (entered fd fl w d))) !! fd = None ->
  fst (with_nonblocking fd body w)
  = Raised (OSError EBADF "Bad file descriptor").
Proof.
  intros Hd Hfl Hclosed.
  unfold with_nonblocking. rewrite (nonblocking_enter_open fd w d Hd), Hfl.
  destruct (body (entered fd fl w d)) as [r w2]. cbn in Hclosed.
  unfold nonblocking_exit, bind, fcntl_fcntl. cbn. rewrite Hclosed.
  reflexivity.
Qed.

Lemma nonblocking_exit_masks_outcome_witness :
  fds a_terminal !! 1 = Some (mk_descriptor 2 (Some (mk_winsize 24 80 0 0))) /\
  d_flags (mk_descriptor 2 (Some (mk_winsize 24 80 0 0))) = 2 /\
  fds (snd (closing_body 1
              (entered 1 2 a_terminal
                 (mk_descriptor 2 (Some (mk_winsize 24 80 0 0)))))) !! 1 = None /\
  fst (with_nonblocking 1 (closing_body 1) a_terminal)
  = Raised (OSError EBADF "Bad file descriptor").
Proof.
  assert (H1 : fds a_terminal !! 1
               = Some (mk_descriptor 2 (Some (mk_winsize 24 80 0 0))))
    by reflexivity.
  assert (H2 : d_flags (mk_descriptor 2 (Some (mk_winsize 24 80 0 0))) = 2)
    by reflexivity.
  assert (H3 : fds (snd (closing_body 1
              (entered 1 2 a_terminal
                 (mk_descriptor 2 (Some (mk_winsize 24 80 0 0)))))) !! 1 = None)
    by (vm_compute; reflexivity).
  split; [exact H1|]. split; [exact H2|]. split; [exact H3|].
  exact (nonblocking_exit_masks_outcome 1 2 (closing_body 1) a_terminal _
           H1 H2 H3).
Defined.

(** X6.  Scopes of two different objects on one descriptor nest: after the
    inner scope the descriptor is still non-blocking, after the outer one
    its flags are the original ones. *)
Theorem nonblocking_scopes_nest {A} (fd fl : Z) (body : M fdworld A)
    (w : fdworld) :
  flags_of fd w = Some fl ->
  keeps_open fd body ->
  exists d,
    fds w !! fd = Some d /\
    flags_of fd (snd (with_nonblocking fd body (entered fd fl w d)))
      = Some (Z.lor fl O_NONBLOCK) /\
    flags_of fd (snd (with_nonblocking fd (with_nonblocking fd body) w))
      = Some fl.
Proof.
  intros Hfl Hopen.
  pose proof (with_nonblocking_keeps_open fd body Hopen) as Hopen'.
  destruct (with_nonblocking_restores fd fl (with_nonblocking fd body) w
              Hfl Hopen') as (d & w2 & Hd & _ & _ & Hout).
  exists d. split; [exact Hd|]. split; [|exact Hout].
  destruct (with_nonblocking_restores fd (Z.lor fl O_NONBLOCK) body
              (entered fd fl w d)) as (d' & w3 & _ & _ & _ & Hin);
    [|exact Hopen|exact Hin].
  unfold flags_of, entered, set_descriptor. cbn.
  rewrite lookup_insert_eq. reflexivity.
Qed.

Lemma nonblocking_scopes_nest_witness :
  flags_of 1 a_terminal = Some 2 /\
  keeps_open 1 failing_body /\
  exists d,
    fds a_terminal !! 1 = Some d /\
    flags_of 1 (snd (with_nonblocking 1 failing_body (entered 1 2 a_terminal d)))
      = Some (Z.lor 2 O_NONBLOCK) /\
    flags_of 1 (snd (with_nonblocking 1 (with_nonblocking 1 failing_body)
                       a_terminal))
      = Some 2.
Proof.
  assert (H1 : flags_of 1 a_terminal = Some 2) by reflexivity.
  assert (H2 : keeps_open 1 failing_body) by exact failing_body_keeps_open.
  split; [exact H1|]. split; [exact H2|].
  exact (nonblocking_scopes_nest 1 2 failing_body a_terminal H1 H2).
Defined.

(** X7.  One object is not re-entrant: when a scope of the object is
    opened inside another scope of the same object, the inner [__enter__]
    overwrites [orig_fl] with the non-blocking flag word, and after both
    releases the descriptor is left non-blocking, not as it was. *)
Theorem nonblocking_object_is_not_reentrant {A} (fd fl : Z)
    (body : M fdworld A) (w : fdworld) (self : nonblocking) :
  nb_fd self = fd ->
  flags_of fd w = Some fl ->
  keeps_open fd body ->
  let s := snd (with_shared (with_shared (plain_body body)) (w, self)) in
  flags_of fd s.1 = Some (Z.lor fl O_NONBLOCK) /\
  orig_fl s.2 = Some (Z.lor fl O_NONBLOCK).
Proof.
  intros Hself Hfl Hopen s. subst s.
  unfold flags_of in Hfl.
  destruct (fds w !! fd) as [d|] eqn:Hd; [|discriminate].
  cbn in Hfl. injection Hfl as Hfl.
  assert (Henter : forall self' w' d', nb_fd self' = fd ->
            fds w' !! fd = Some d' ->
            enter_shared (w', self')
            = (Ok tt, (entered fd (d_flags d') w' d',
                       {| nb_fd := fd; orig_fl := Some (d_flags d') |}))).
  { intros self' w' d' Hs Hd'. unfold enter_shared. cbn [fst snd].
    destruct self' as [fd' o]. cbn in Hs. subst fd'.
    unfold nonblocking_enter, bind, fcntl_fcntl, ret. cbn.
    rewrite Hd', fds_log_request, Hd'. reflexivity. }
  remember (with_shared (with_shared (plain_body body)) (w, self)) as res
    eqn:Hres.
  unfold with_shared at 1 in Hres.
  rewrite (Henter self w d Hself Hd), Hfl in Hres.
  set (w1 := entered fd fl w d) in Hres.
  assert (Hd1 : fds w1 !! fd
                = Some (mk_descriptor (Z.lor fl O_NONBLOCK) (d_tty d))).
  { unfold w1, entered, set_descriptor. cbn. apply lookup_insert_eq. }
  unfold with_shared at 1 in Hres.
  rewrite (Henter {| nb_fd := fd; orig_fl := Some fl |} w1 _ eq_refl Hd1)
    in Hres.
  cbn [d_flags d_tty] in Hres.
  set (w2 := entered fd (Z.lor fl O_NONBLOCK) w1 _) in Hres.
  assert (Hopen2 : is_Some (fds w2 !! fd)).
  { unfold w2, entered, set_descriptor. cbn. rewrite lookup_insert_eq. eauto. }
  unfold plain_body in Hres. cbn [fst snd] in Hres.
  pose proof (Hopen w2 Hopen2) as Hopen3.
  destruct (body w2) as [r w3]. cbn [snd] in Hopen3.
  destruct Hopen3 as [d3 Hd3].
  unfold exit_shared at 1 in Hres. cbn [fst snd] in Hres.
  rewrite (nonblocking_exit_open fd (Z.lor fl O_NONBLOCK) w3 d3 Hd3) in Hres.
  set (w4 := set_descriptor fd _ (log_request _ w3)) in Hres.
  assert (Hd4 : fds w4 !! fd
                = Some (mk_descriptor (Z.lor fl O_NONBLOCK) (d_tty d3))).
  { unfold w4, set_descriptor. cbn. apply lookup_insert_eq. }
  unfold exit_shared in Hres. cbn [fst snd] in Hres.
  rewrite (nonblocking_exit_open fd (Z.lor fl O_NONBLOCK) w4 _ Hd4) in Hres.
  subst res. cbn. unfold flags_of. cbn. rewrite lookup_insert_eq. auto.
Qed.

Lemma nonblocking_object_is_not_reentrant_witness :
  nb_fd (nonblocking_init 1) = 1 /\
  flags_of 1 a_terminal = Some 2 /\
  keeps_open 1 failing_body /\
  let s := snd (with_shared (with_shared (plain_body failing_body))
                  (a_terminal, nonblocking_init 1)) in
  flags_of 1 s.1 = Some (Z.lor 2 O_NONBLOCK) /\
  orig_fl s.2 = Some (Z.lor 2 O_NONBLOCK).
Proof.
  assert (H0 : nb_fd (nonblocking_init 1) = 1) by reflexivity.
  assert (H1 : flags_of 1 a_terminal = Some 2) by reflexivity.
  assert (H2 : keeps_open 1 failing_body) by exact failing_body_keeps_open.
  split; [exact H0|]. split; [exact H1|]. split; [exact H2|].
  exact (nonblocking_object_is_not_reentrant 1 2 failing_body a_terminal
           (nonblocking_init 1) H0 H1 H2).
Defined.

(** ** Cached properties, further *)

Section CachedPropertyMore.
Context {V U : Type}.
Implicit Types (self : cached_property V U) (w : pyworld V U)
               (h : pyheap V U) (inst a b : nat) (v : V).

(** What [del inst._cache[key]] does to an entry that is there. *)
Lemma expire_present inst key w (e : V * Z) :
  cache_entry w inst key = Some e ->
  fst (expire inst key w) = Ok tt /\
  cache_entry (snd (expire inst key w)) inst key = None /\
  clock (snd (expire inst key w)) = clock w /\
  fget_calls (snd (expire inst key w)) = fget_calls w.
Proof.
  unfold cache_entry, heap_entry, expire, bind, getattr_cache, dict_delitem.
  destruct (cache_attr (heap w) !! inst) as [r|] eqn:Hr; [|discriminate].
  intros He. rewrite He. cbn. rewrite Hr.
  unfold dict_of. cbn. rewrite lookup_insert_eq. cbn.
  rewrite lookup_delete_eq. auto.
Qed.

(** X8.  Expiring an entry by hand makes the next read compute the value
    anew, whatever the time-to-live (also 0) and however young the entry
    was: the wrapped function is called once more and its value returned. *)
Theorem expire_forces_recomputation self inst w (e : V * Z) v h1 :
  cache_entry w inst (name self) = Some e ->
  fget self inst (heap (snd (expire inst (name self) w))) = (Ok v, h1) ->
  let w1 := snd (expire inst (name self) w) in
  fst (expire inst (name self) w) = Ok tt /\
  fst (cached_property_get self inst w1) = Ok v /\
  fget_calls (snd (cached_property_get self inst w1))
    = fget_calls w ++ [(name self, inst)] /\
  cache_entry (snd (cached_property_get self inst w1)) inst (name self)
    = Some (v, clock w).
Proof.
  intros He Hf w1.
  destruct (expire_present inst (name self) w e He) as (Hok & Hgone & Hclock & Hcalls).
  fold w1 in Hgone, Hclock, Hcalls, Hf.
  split; [exact Hok|].
  rewrite (get_miss self inst w1 Hgone).
  destruct (recompute_ok self inst w1 v h1 (clock w1) Hf)
    as (w' & -> & Hentry & Hc & _).
  cbn. rewrite Hc, Hcalls, <- Hclock. auto.
Qed.


(** X10.  An exception of the wrapped function is not cached.  When a read
    has to compute (no entry, or a stale one) and the function raises, the
    exception leaves [__get__], the call is counted, and the cache holds
    what the function left there: a failed refresh keeps the stale entry. *)
Theorem exception_is_not_cached self inst w (e : exn) h1 :
  (cache_entry w inst (name self) = None \/
   exists v t, cache_entry w inst (name self) = Some (v, t) /\
               0 < ttl self /\ ttl self < clock w - t) ->
  fget self inst (heap w) = (Raised e, h1) ->
  cached_property_get self inst w
  = (Raised e, {| heap := h1; clock := clock w;
                  fget_calls := fget_calls w ++ [(name self, inst)] |}).
Proof.
  intros Hcompute Hf.
  assert (Hget : cached_property_get self inst w
                 = recompute self inst (clock w) w).
  { destruct Hcompute as [Hmiss|(v & t & Hhit & Hpos & Hold)].
    - exact (get_miss self inst w Hmiss).
    - exact (get_expired self inst w v t Hhit Hpos Hold). }
  rewrite Hget. exact (recompute_raises self inst w e h1 (clock w) Hf).
Qed.

(** X11.  The cache is keyed by the function's name alone.  Two
    properties of the same name share an entry: once one of them has stored
    its value, a read through the other returns that value and does not call
    its own function. *)
Theorem namesakes_share_an_entry self other inst w v h1 :
  name other = name self ->
  cache_entry w inst (name self) = None ->
  fget self inst (heap w) = (Ok v, h1) ->
  let w1 := snd (cached_property_get self inst w) in
  cached_property_get other inst w1 = (Ok v, w1).
Proof.
  intros Hname Hmiss Hf w1. subst w1.
  rewrite (get_miss self inst w Hmiss).
  destruct (recompute_ok self inst w v h1 (clock w) Hf)
    as (w' & -> & Hentry & _ & Hclock & _).
  cbn [snd]. rewrite <- Hname in Hentry.
  apply (get_hit other inst w' v (clock w) Hentry). lia.
Qed.

Lemma store_entry_other_key inst (key other : string) (e : V * Z) h :
  other <> key ->
  heap_entry (store_entry inst key e h) inst other = heap_entry h inst other.
Proof.
  intros Hne. unfold store_entry, heap_entry.
  destruct (cache_attr h !! inst) as [r|] eqn:Hr; cbn.
  - rewrite Hr. unfold dict_of at 1. cbn. rewrite lookup_insert_eq. cbn.
    apply lookup_insert_ne. congruence.
  - rewrite lookup_insert_eq. unfold dict_of. cbn.
    rewrite lookup_insert_eq. cbn.
    rewrite lookup_insert_ne by congruence. apply lookup_empty.
Qed.

(** X12.  Properties of different names on one instance do not disturb
    each other: a read of one leaves the entry of the other as the wrapped
    function left it. *)
Theorem other_names_are_untouched self inst w (other : string) :
  other <> name self ->
  heap_entry (snd (fget self inst (heap w))) inst other
    = cache_entry w inst other ->
  cache_entry (snd (cached_property_get self inst w)) inst other
    = cache_entry w inst other.
Proof.
  intros Hne Hframe. unfold cache_entry at 1.
  destruct (get_cases self inst w) as [[v ->]| ->]; [reflexivity|].
  rewrite recompute_heap.
  destruct (fget self inst (heap w)) as [[v|e] h1]; cbn in Hframe.
  - rewrite store_entry_other_key by assumption. exact Hframe.
  - exact Hframe.
Qed.

(** X13.  When the [_cache] attributes of two instances refer to the same
    dictionary (as they do when the attribute is found on the class), the
    instances share the entries: the value computed for one is returned for
    the other, whose own value is never computed. *)
Theorem shared_dictionary_shares_values self a b w (r : nat) v h1 :
  cache_entry w a (name self) = None ->
  fget self a (heap w) = (Ok v, h1) ->
  cache_attr h1 !! a = Some r -> cache_attr h1 !! b = Some r ->
  let w1 := snd (cached_property_get self a w) in
  cache_entry w1 b (name self) = Some (v, clock w) /\
  cached_property_get self b w1 = (Ok v, w1).
Proof.
  intros Hmiss Hf Ha Hb w1.
  assert (Hentry : cache_entry w1 b (name self) = Some (v, clock w)).
  { subst w1. unfold cache_entry.
    rewrite (get_miss self a w Hmiss), recompute_heap, Hf.
    unfold store_entry, heap_entry. rewrite Ha. cbn. rewrite Hb.
    unfold dict_of at 1. cbn. rewrite lookup_insert_eq. cbn.
    apply lookup_insert_eq. }
  split; [exact Hentry|].
  apply (get_hit self b w1 v (clock w) Hentry).
  subst w1. rewrite (get_miss self a w Hmiss).
  destruct (recompute_ok self a w v h1 (clock w) Hf)
    as (w' & -> & _ & _ & Hclock & _).
  cbn [snd]. lia.
Qed.

(** X14.  A time-to-live below zero behaves like zero: an entry, once
    there, answers every read, whatever the clock and the program do. *)
Theorem negative_ttl_never_expires self inst v t (acts : list (action U)) w :
  ttl self < 0 ->
  cache_entry w inst (name self) = Some (v, t) ->
  Forall (fun r => r = Ok v) (fst (run_actions self inst acts w)) /\
  fget_calls (snd (run_actions self inst acts w)) = fget_calls w.
Proof.
  intros Httl. revert w.
  induction acts as [|[|t'|m] rest IH]; intros w Hhit.
  - cbn. auto.
  - cbn [run_actions]. rewrite (get_hit self inst w v t Hhit) by lia.
    destruct (IH w Hhit) as [Hrs Hcalls].
    destruct (run_actions self inst rest w) as [rs w''].
    cbn in *. auto.
  - cbn [run_actions]. apply (IH (set_clock t' w)). exact Hhit.
  - cbn [run_actions]. apply (IH (mutate_user m w)). exact Hhit.
Qed.

(** X15.  Without a time-to-live the decorator takes 300: an entry is
    served up to and including 300 ticks after it was stored, and computed
    anew from 301 on. *)
Theorem default_ttl_is_300 (fname : string)
    (f : nat -> pyheap V U -> result V * pyheap V U) inst w v t :
  let self := cached_property_decorate None fname f in
  cache_entry w inst fname = Some (v, t) ->
  (clock w - t <= 300 -> cached_property_get self inst w = (Ok v, w)) /\
  (300 < clock w - t ->
   fget_calls (snd (cached_property_get self inst w))
     = fget_calls w ++ [(fname, inst)]).
Proof.
  intros self Hhit. split.
  - intros Hfresh. apply (get_hit self inst w v t Hhit). right. exact Hfresh.
  - intros Hold.
    rewrite (get_expired self inst w v t Hhit); [|reflexivity|exact Hold].
    apply (recompute_calls self inst w (clock w)).
Qed.

End CachedPropertyMore.

Lemma expire_forces_recomputation_witness :
  cache_entry read_world 7 (name forever) = Some (5, 100) /\
  fget forever 7 (heap (snd (expire 7 (name forever) read_world)))
    = (Ok 5, heap (snd (expire 7 (name forever) read_world))) /\
  let w1 := snd (expire 7 (name forever) read_world) in
  fst (expire 7 (name forever) read_world) = Ok tt /\
  fst (cached_property_get forever 7 w1) = Ok 5 /\
  fget_calls (snd (cached_property_get forever 7 w1))
    = fget_calls read_world ++ [(name forever, 7%nat)] /\
  cache_entry (snd (cached_property_get forever 7 w1)) 7 (name forever)
    = Some (5, clock read_world).
Proof.
  assert (H1 : cache_entry read_world 7 (name forever) = Some (5, 100))
    by (vm_compute; reflexivity).
  assert (H2 : fget forever 7 (heap (snd (expire 7 (name forever) read_world)))
               = (Ok 5, heap (snd (expire 7 (name forever) read_world))))
    by reflexivity.
  split; [exact H1|]. split; [exact H2|].
  exact (expire_forces_recomputation forever 7 read_world (5, 100) 5 _ H1 H2).
Defined.


Lemma exception_is_not_cached_witness :
  (cache_entry start_world 7 (name broken) = None \/
   exists v t, cache_entry start_world 7 (name broken) = Some (v, t) /\
               0 < ttl broken /\ ttl broken < clock start_world - t) /\
  fget broken 7 (heap start_world)
    = (Raised (PyException "no value"), heap start_world) /\
  cached_property_get broken 7 start_world
  = (Raised (PyException "no value"),
     {| heap := heap start_world; clock := clock start_world;
        fget_calls := fget_calls start_world ++ [(name broken, 7%nat)] |}).
Proof.
  assert (H1 : cache_entry start_world 7 (name broken) = None \/
               exists v t, cache_entry start_world 7 (name broken) = Some (v, t) /\
                 0 < ttl broken /\ ttl broken < clock start_world - t)
    by (left; reflexivity).
  assert (H2 : fget broken 7 (heap start_world)
               = (Raised (PyException "no value"), heap start_world))
    by reflexivity.
  split; [exact H1|]. split; [exact H2|].
  exact (exception_is_not_cached broken 7 start_world _ _ H1 H2).
Defined.

Lemma namesakes_share_an_entry_witness :
  name namesake = name forever /\
  cache_entry start_world 7 (name forever) = None /\
  fget forever 7 (heap start_world) = (Ok 5, heap start_world) /\
  let w1 := snd (cached_property_get forever 7 start_world) in
  cached_property_get namesake 7 w1 = (Ok 5, w1).
Proof.
  assert (H1 : name namesake = name forever) by reflexivity.
  assert (H2 : cache_entry start_world 7 (name forever) = None) by reflexivity.
  assert (H3 : fget forever 7 (heap start_world) = (Ok 5, heap start_world))
    by reflexivity.
  split; [exact H1|]. split; [exact H2|]. split; [exact H3|].
  exact (namesakes_share_an_entry forever namesake 7 start_world 5 _ H1 H2 H3).
Defined.

Lemma other_names_are_untouched_witness :
  "size" <> name forever /\
  heap_entry (snd (fget forever 7 (heap start_world))) 7 "size"
    = cache_entry start_world 7 "size" /\
  cache_entry (snd (cached_property_get forever 7 start_world)) 7 "size"
    = cache_entry start_world 7 "size".
Proof.
  assert (H1 : "size" <> name forever) by discriminate.
  assert (H2 : heap_entry (snd (fget forever 7 (heap start_world))) 7 "size"
               = cache_entry start_world 7 "size") by reflexivity.
  split; [exact H1|]. split; [exact H2|].
  exact (other_names_are_untouched forever 7 start_world "size" H1 H2).
Defined.

Lemma shared_dictionary_shares_values_witness :
  cache_entry shared_world 1 (name forever) = None /\
  fget forever 1 (heap shared_world) = (Ok 5, heap shared_world) /\
  cache_attr (heap shared_world) !! 1%nat = Some 0%nat /\
  cache_attr (heap shared_world) !! 2%nat = Some 0%nat /\
  let w1 := snd (cached_property_get forever 1 shared_world) in
  cache_entry w1 2 (name forever) = Some (5, clock shared_world) /\
  cached_property_get forever 2 w1 = (Ok 5, w1).
Proof.
  assert (H1 : cache_entry shared_world 1 (name forever) = None)
    by (vm_compute; reflexivity).
  assert (H2 : fget forever 1 (heap shared_world) = (Ok 5, heap shared_world))
    by reflexivity.
  assert (H3 : cache_attr (heap shared_world) !! 1%nat = Some 0%nat)
    by (vm_compute; reflexivity).
  assert (H4 : cache_attr (heap shared_world) !! 2%nat = Some 0%nat)
    by (vm_compute; reflexivity).
  split; [exact H1|]. split; [exact H2|]. split; [exact H3|].
  split; [exact H4|].
  exact (shared_dictionary_shares_values forever 1 2 shared_world 0 5 _
           H1 H2 H3 H4).
Defined.

Lemma negative_ttl_never_expires_witness :
  ttl never_again < 0 /\
  cache_entry read_world 7 (name never_again) = Some (5, 100) /\
  Forall (fun r => r = Ok 5)
         (fst (run_actions never_again 7 busy_caller read_world)) /\
  fget_calls (snd (run_actions never_again 7 busy_caller read_world))
    = fget_calls read_world.
Proof.
  assert (H1 : ttl never_again < 0) by reflexivity.
  assert (H2 : cache_entry read_world 7 (name never_again) = Some (5, 100))
    by (vm_compute; reflexivity).
  split; [exact H1|]. split; [exact H2|].
  exact (negative_ttl_never_expires never_again 7 5 100 busy_caller read_world
           H1 H2).
Defined.

Lemma default_ttl_is_300_witness :
  cache_entry later_world 7 "answer" = Some (5, 100) /\
  let self := cached_property_decorate None "answer" read_user in
  (clock later_world - 100 <= 300 ->
   cached_property_get self 7 later_world = (Ok 5, later_world)) /\
  (300 < clock later_world - 100 ->
   fget_calls (snd (cached_property_get self 7 later_world))
     = fget_calls later_world ++ [("answer", 7%nat)]).
Proof.
  assert (H : cache_entry later_world 7 "answer" = Some (5, 100))
    by (vm_compute; reflexivity).
  split; [exact H|].
  exact (default_ttl_is_300 "answer" read_user 7 later_world 5 100 H).
Defined.

(** ** Making the pty the controlling terminal, further *)

(** X16.  In a system whose calls fail with [OSError] and whose [open]
    returns descriptors, no exception of the function's own making ever
    leaves it: neither "Failed to disconnect" nor either "Could not open"
    message.  Whatever it raises is the [OSError] of one of its calls. *)
Theorem only_OSError_leaves (os : simulated_os) (tty_fd : Z)
    (trace : list event) (e : exn) :
  raises_only_OSError os ->
  opens_give_descriptors os ->
  snd (run_sim os (pty_make_controlling_tty tty_fd) trace) = Raised e ->
  is_OSError e = true.
Proof.
  intros Hos Hfd. unfold pty_make_controlling_tty. cbn.
  repeat (next_answer os;
          repeat match goal with
            | |- context [if ?b then _ else _] =>
                let Hb := fresh "Hb" in destruct b eqn:Hb; cbn
            end);
    intros Heq; try discriminate;
    try (injection Heq as <-;
         match goal with
         | H : os _ _ _ = Raised _ |- _ => exact (Hos _ _ _ _ H)
         end);
    exfalso;
    repeat match goal with
      | H : os Z _ (os_open _ _) = Ok _ |- _ => apply Hfd in H
      end;
    lia.
Qed.

Lemma always_succeeds_raises_only_OSError : raises_only_OSError always_succeeds.
Proof. intros X trace c e. destruct c; discriminate. Qed.

Lemma always_succeeds_opens : opens_give_descriptors always_succeeds.
Proof. intros trace path flags fd H. injection H as <-. lia. Qed.

Lemma no_setsid_raises_only_OSError : raises_only_OSError no_setsid.
Proof.
  intros X trace c e. destruct c; cbn; try discriminate.
  intros H. injection H as <-. reflexivity.
Qed.

Lemma no_setsid_opens : opens_give_descriptors no_setsid.
Proof. intros trace path flags fd H. injection H as <-. lia. Qed.

Lemma only_OSError_leaves_witness :
  raises_only_OSError no_setsid /\
  opens_give_descriptors no_setsid /\
  snd (run_sim no_setsid (pty_make_controlling_tty 0) [])
    = Raised (OSError EPERM "Operation not permitted") /\
  is_OSError (OSError EPERM "Operation not permitted") = true.
Proof.
  assert (H1 : raises_only_OSError no_setsid)
    by exact no_setsid_raises_only_OSError.
  assert (H2 : opens_give_descriptors no_setsid) by exact no_setsid_opens.
  assert (H3 : snd (run_sim no_setsid (pty_make_controlling_tty 0) [])
               = Raised (OSError EPERM "Operation not permitted"))
    by reflexivity.
  split; [exact H1|]. split; [exact H2|]. split; [exact H3|].
  exact (only_OSError_leaves no_setsid 0 [] _ H1 H2 H3).
Defined.

(** X17.  The function keeps no descriptor: in a system whose [open]
    returns descriptors, each descriptor it opens (the two probes of
    /dev/tty, the child pty, the final /dev/tty) is closed by its very next
    call, whatever the other calls answer. *)
Theorem descriptors_are_closed_at_once (os : simulated_os) (tty_fd : Z) :
  opens_give_descriptors os ->
  closed_at_once (fst (run_sim os (pty_make_controlling_tty tty_fd) [])).
Proof.
  intros Hfd. unfold pty_make_controlling_tty. cbn.
  repeat (next_answer os;
          repeat match goal with
            | |- context [if ?b then _ else _] =>
                let Hb := fresh "Hb" in destruct b eqn:Hb; cbn
            end);
    try (repeat split; reflexivity);
    exfalso;
    repeat match goal with
      | H : os Z _ (os_open _ _) = Ok _ |- _ => apply Hfd in H
      end;
    lia.
Qed.

Lemma descriptors_are_closed_at_once_witness :
  opens_give_descriptors always_succeeds /\
  closed_at_once (fst (run_sim always_succeeds (pty_make_controlling_tty 0) [])).
Proof.
  assert (H : opens_give_descriptors always_succeeds)
    by exact always_succeeds_opens.
  split; [exact H|].
  exact (descriptors_are_closed_at_once always_succeeds 0 H).
Defined.

(** X18.  The descriptor is looked at first: when [os.ttyname] raises
    (the descriptor is closed or no terminal), that exception leaves the
    function and no other call is made. *)
Theorem ttyname_failure_aborts (os : simulated_os) (tty_fd : Z) (e : exn) :
  os string [] (os_ttyname tty_fd) = Raised e ->
  run_sim os (pty_make_controlling_tty tty_fd) []
  = ([Ev (os_ttyname tty_fd) (Raised e)], Raised e).
Proof.
  intros H. unfold pty_make_controlling_tty. cbn. rewrite H. reflexivity.
Qed.

Lemma ttyname_failure_aborts_witness :
  no_ttyname string [] (os_ttyname 0)
    = Raised (OSError ENOTTY "Inappropriate ioctl for device") /\
  run_sim no_ttyname (pty_make_controlling_tty 0) []
  = ([Ev (os_ttyname 0)
         (Raised (OSError ENOTTY "Inappropriate ioctl for device"))],
     Raised (OSError ENOTTY "Inappropriate ioctl for device")).
Proof.
  assert (H : no_ttyname string [] (os_ttyname 0)
              = Raised (OSError ENOTTY "Inappropriate ioctl for device"))
    by reflexivity.
  split; [exact H|].
  exact (ttyname_failure_aborts no_ttyname 0 _ H).
Defined.

(** X19.  A refused [setsid] is not swallowed like the failures of the
    probes around it: its exception leaves the function, [setsid] is the
    last call made, and the child pty is never opened. *)
Theorem setsid_failure_aborts (os : simulated_os) (tty_fd : Z)
    (child_name : string) (e : exn) :
  os string [] (os_ttyname tty_fd) = Ok child_name ->
  (forall trace, os unit trace os_setsid = Raised e) ->
  snd (run_sim os (pty_make_controlling_tty tty_fd) []) = Raised e /\
  last (fst (run_sim os (pty_make_controlling_tty tty_fd) []))
    = Some (Ev os_setsid (Raised e)).
Proof.
  intros Hname Hsetsid. unfold pty_make_controlling_tty. cbn.
  rewrite Hname. cbn.
  next_answer os; rewrite ?Hsetsid; cbn; [|auto].
  destruct (0 <=? a); cbn; rewrite ?Hsetsid; cbn; [|auto].
  next_answer os; rewrite ?Hsetsid; cbn; auto.
Qed.

Lemma setsid_failure_aborts_witness :
  no_setsid string [] (os_ttyname 0) = Ok "/dev/pts/1" /\
  (forall trace, no_setsid unit trace os_setsid
                 = Raised (OSError EPERM "Operation not permitted")) /\
  snd (run_sim no_setsid (pty_make_controlling_tty 0) [])
    = Raised (OSError EPERM "Operation not permitted") /\
  last (fst (run_sim no_setsid (pty_make_controlling_tty 0) []))
    = Some (Ev os_setsid (Raised (OSError EPERM "Operation not permitted"))).
Proof.
  assert (H1 : no_setsid string [] (os_ttyname 0) = Ok "/dev/pts/1")
    by reflexivity.
  assert (H2 : forall trace, no_setsid unit trace os_setsid
                 = Raised (OSError EPERM "Operation not permitted"))
    by (intros trace; reflexivity).
  split; [exact H1|]. split; [exact H2|].
  exact (setsid_failure_aborts no_setsid 0 "/dev/pts/1" _ H1 H2).
Defined.

(** ** Daemonizing, further *)

(** X20.  The first [try] covers the [waitpid] as well: when the fork
    gave a child and [waitpid] raises [OSError], the caller reports it as
    "fork #1 failed" and exits with status 1, although the fork succeeded
    and the child goes on. *)
Theorem waitpid_failure_is_reported_as_fork_failure (os : simulated_os)
    (stdin stdout stderr strerror : string) (pid errno : Z) :
  os Z [] os_fork = Ok pid ->
  0 < pid ->
  os _ [Ev os_fork (Ok pid)] (os_waitpid pid 0)
    = Raised (OSError errno strerror) ->
  os unit [Ev os_fork (Ok pid);
           Ev (os_waitpid pid 0) (Raised (OSError errno strerror))]
       (sys_stderr_write (fork_failed_msg "1" errno strerror)) = Ok tt ->
  run_sim os (daemonize stdin stdout stderr) []
  = ([ Ev os_fork (Ok pid);
       Ev (os_waitpid pid 0) (Raised (OSError errno strerror));
       Ev (sys_stderr_write (fork_failed_msg "1" errno strerror)) (Ok tt) ],
     Raised (SystemExit 1)).
Proof.
  intros Hfork Hpid Hwait Hwrite. unfold daemonize. cbn.
  rewrite Hfork. cbn.
  destruct (Z.ltb_spec 0 pid); [|lia]. cbn.
  rewrite Hwait. cbn. rewrite Hwrite. reflexivity.
Qed.

Lemma waitpid_failure_is_reported_as_fork_failure_witness :
  interrupted_wait Z [] os_fork = Ok 2 /\
  0 < 2 /\
  interrupted_wait _ [Ev os_fork (Ok 2)] (os_waitpid 2 0)
    = Raised (OSError 4 "Interrupted system call") /\
  interrupted_wait unit
       [Ev os_fork (Ok 2);
        Ev (os_waitpid 2 0) (Raised (OSError 4 "Interrupted system call"))]
       (sys_stderr_write (fork_failed_msg "1" 4 "Interrupted system call"))
    = Ok tt /\
  run_sim interrupted_wait (daemonize "/dev/null" "/dev/null" "/dev/null") []
  = ([ Ev os_fork (Ok 2);
       Ev (os_waitpid 2 0) (Raised (OSError 4 "Interrupted system call"));
       Ev (sys_stderr_write (fork_failed_msg "1" 4 "Interrupted system call"))
          (Ok tt) ],
     Raised (SystemExit 1)).
Proof.
  assert (H1 : interrupted_wait Z [] os_fork = Ok 2) by reflexivity.
  assert (H2 : 0 < 2) by lia.
  assert (H3 : interrupted_wait _ [Ev os_fork (Ok 2)] (os_waitpid 2 0)
               = Raised (OSError 4 "Interrupted system call")) by reflexivity.
  assert (H4 : interrupted_wait unit
       [Ev os_fork (Ok 2);
        Ev (os_waitpid 2 0) (Raised (OSError 4 "Interrupted system call"))]
       (sys_stderr_write (fork_failed_msg "1" 4 "Interrupted system call"))
    = Ok tt) by reflexivity.
  split; [exact H1|]. split; [exact H2|]. split; [exact H3|].
  split; [exact H4|].
  exact (waitpid_failure_is_reported_as_fork_failure interrupted_wait
           "/dev/null" "/dev/null" "/dev/null" _ 2 4 H1 H2 H3 H4).
Defined.

(** X21.  The three files are opened before any standard descriptor is
    replaced: when one of the opens fails, no [dup2] is made, in whatever
    system, and standard input, output and error stay as they were. *)
Theorem no_redirection_after_failed_open (os : simulated_os)
    (stdin stdout stderr : string) :
  existsb is_failed_open (fst (run_sim os (daemonize stdin stdout stderr) []))
    = true ->
  existsb is_dup2 (fst (run_sim os (daemonize stdin stdout stderr) []))
    = false.
Proof.
  unfold daemonize. cbn.
  repeat (next_answer os;
          repeat match goal with
            | |- context [if ?b then _ else _] => destruct b; cbn
            | |- context [match ?e with OSError _ _ => _ | _ => _ end] =>
                destruct e; cbn
            | |- context [let (_, _) := ?p in _] => destruct p; cbn
            end);
    intros H; try discriminate; reflexivity.
Qed.

Lemma no_redirection_after_failed_open_witness :
  existsb is_failed_open
    (fst (run_sim missing_file
            (daemonize "/dev/null" "/nonexistent/log" "/dev/null") []))
    = true /\
  existsb is_dup2
    (fst (run_sim missing_file
            (daemonize "/dev/null" "/nonexistent/log" "/dev/null") []))
    = false.
Proof.
  assert (H : existsb is_failed_open
    (fst (run_sim missing_file
            (daemonize "/dev/null" "/nonexistent/log" "/dev/null") []))
    = true) by reflexivity.
  split; [exact H|].
  exact (no_redirection_after_failed_open missing_file
           "/dev/null" "/nonexistent/log" "/dev/null" H).
Defined.

(** X22.  [Parent] says nothing about the child: when the fork gave a
    child and [waitpid] returned, the caller gets [Parent] after these two
    calls whatever exit status [waitpid] reported. *)
Theorem parent_ignores_child_status (os : simulated_os)
    (stdin stdout stderr : string) (pid : Z) (st : Z * Z) :
  os Z [] os_fork = Ok pid ->
  0 < pid ->
  os _ [Ev os_fork (Ok pid)] (os_waitpid pid 0) = Ok st ->
  run_sim os (daemonize stdin stdout stderr) []
  = ([ Ev os_fork (Ok pid); Ev (os_waitpid pid 0) (Ok st) ], Ok Parent).
Proof.
  intros Hfork Hpid Hwait. unfold daemonize. cbn.
  rewrite Hfork. cbn.
  destruct (Z.ltb_spec 0 pid); [|lia]. cbn.
  rewrite Hwait. reflexivity.
Qed.

Lemma parent_ignores_child_status_witness :
  as_parent Z [] os_fork = Ok 2 /\
  0 < 2 /\
  as_parent _ [Ev os_fork (Ok 2)] (os_waitpid 2 0) = Ok (2, 256) /\
  run_sim as_parent (daemonize "/dev/null" "/dev/null" "/dev/null") []
  = ([ Ev os_fork (Ok 2); Ev (os_waitpid 2 0) (Ok (2, 256)) ], Ok Parent).
Proof.
  assert (H1 : as_parent Z [] os_fork = Ok 2) by reflexivity.
  assert (H2 : 0 < 2) by lia.
  assert (H3 : as_parent _ [Ev os_fork (Ok 2)] (os_waitpid 2 0) = Ok (2, 256))
    by reflexivity.
  split; [exact H1|]. split; [exact H2|]. split; [exact H3|].
  exact (parent_ignores_child_status as_parent
           "/dev/null" "/dev/null" "/dev/null" 2 (2, 256) H1 H2 H3).
Defined.


(** ** The alias table *)

Ltac by_computation :=
  match goal with
  | |- ?P => refine (@bool_decide_unpack P _ _); vm_compute; exact I
  end.

(** X23.  No alias is written twice in the table: the dictionary holds
    exactly the 34 pairs written, each alias with the command beside it. *)
Theorem aliases_are_the_pairs_written (k v : string) :
  (ALIASES !! k = Some v <-> (k, v) ∈ ALIASES_items) /\
  size ALIASES = length ALIASES_items /\
  NoDup (ALIASES_items.*1).
Proof.
  split; [split|split].
  - revert k v.
    assert (H : map_Forall (fun k v => (k, v) ∈ ALIASES_items) ALIASES)
      by by_computation.
    exact H.
  - revert k v.
    assert (H : Forall (fun kv => ALIASES !! kv.1 = Some kv.2) ALIASES_items)
      by by_computation.
    intros k v Hin. rewrite Forall_forall in H. exact (H (k, v) Hin).
  - vm_compute. reflexivity.
  - by_computation.
Qed.

(** X24.  The command an alias stands for is never itself an alias:
    looking a name up twice gives nothing new. *)
Theorem alias_targets_are_not_aliases (k v : string) :
  ALIASES !! k = Some v -> ALIASES !! v = None.
Proof.
  revert k v.
  assert (H : map_Forall (fun _ v => ALIASES !! v = None) ALIASES)
    by by_computation.
  exact H.
Qed.

Lemma alias_targets_are_not_aliases_witness :
  ALIASES !! "splitw" = Some "split-window" /\
  ALIASES !! "split-window" = None.
Proof.
  assert (H : ALIASES !! "splitw" = Some "split-window")
    by (vm_compute; reflexivity).
  split; [exact H|].
  exact (alias_targets_are_not_aliases "splitw" "split-window" H).
Defined.

(** X25.  No two aliases stand for the same command. *)
Theorem aliases_are_injective (k1 k2 v : string) :
  ALIASES !! k1 = Some v -> ALIASES !! k2 = Some v -> k1 = k2.
Proof.
  revert k1 k2 v.
  assert (H : map_Forall (fun k1 v1 =>
                map_Forall (fun k2 v2 => v1 = v2 -> k1 = k2) ALIASES) ALIASES)
    by by_computation.
  intros k1 k2 v H1 H2. exact (H k1 v H1 k2 v H2 eq_refl).
Qed.

Lemma aliases_are_injective_witness :
  ALIASES !! "next" = Some "next-window" /\
  ALIASES !! "next" = Some "next-window" /\
  "next" = "next".
Proof.
  assert (H : ALIASES !! "next" = Some "next-window")
    by (vm_compute; reflexivity).
  split; [exact H|]. split; [exact H|].
  exact (aliases_are_injective "next" "next" "next-window" H H).
Defined.
